(** * Stock movers alert: the open-to-10AM change report

    A shallow embedding of [stock_movers.py] and the properties of its two
    components, the change calculator ([get_stock_changes]) and the report
    emailer ([send_email]), run once by [main].

    Modelling choices, all taken from the program text:

    - Prices are the [numpy.float64] scalars that [Series.iloc] hands back, so
      they are modelled by Rocq's primitive binary64 floats.  Their arithmetic
      is total: dividing by zero yields an infinity or a NaN and raises no
      Python exception.
    - A timezone-aware timestamp is a wall-clock reading together with the UTC
      offset attached to it; aware timestamps compare by the instant they
      denote.
    - [print], the provider request and the SMTP session are events of a
      trace; an exception is the [Raise] outcome of a computation.
    - The row order produced by [DataFrame.sort_values] is the work of the
      sorting algorithm pandas selects by its [kind] argument.  The program
      passes none, which selects ['quicksort'], a kind pandas documents as
      not stable; the order is therefore fixed only up to what every kind
      guarantees: see [sort_kind]. *)

From Stdlib Require Import ZArith List String Ascii Bool Lia.
From Stdlib Require Import Floats Permutation Sorted.
Import ListNotations.

Local Open Scope Z_scope.

(** ** Timestamps

    A [datetime] carries its wall-clock reading, in seconds counted on the
    local calendar from 1970-01-01 00:00, and the UTC offset attached to it,
    in seconds east of UTC.  A naive datetime or a date is a bare [Z]. *)

Record datetime : Type := mk_datetime { wall : Z; utcoffset : Z }.

(** The instant an aware datetime denotes, in seconds since the epoch. *)
Definition instant (d : datetime) : Z := wall d - utcoffset d.

(** [a <= b] on aware datetimes and on [DatetimeIndex] entries. *)
Definition dt_leb (a b : datetime) : bool := instant a <=? instant b.

(** A [pytz] zone.  [utcoffset_at] is the zone's rule: the offset in force at
    a UTC instant, which [datetime.now(tz)] and [tz_convert(tz)] apply.
    [zone_utcoffset] is the offset the bare zone object reports for a datetime
    it was attached to without localisation: [tz.utcoffset(dt)] answers
    [tz._utcoffset] when [dt.tzinfo is tz], and for a zone obtained from
    [pytz.timezone] that is the zone's first entry, its local mean time. *)
Record tzinfo : Type := mk_tzinfo {
  utcoffset_at : Z -> Z;
  zone_utcoffset : Z
}.

(** [pytz.timezone('US/Eastern')], over the zone's rule as the tz database
    gives it (-18000 under EST, -14400 under EDT).  The zone's first entry is
    LMT-4:56. *)
Definition US_Eastern (rule : Z -> Z) : tzinfo :=
  {| utcoffset_at := rule; zone_utcoffset := - (4 * 3600 + 56 * 60) |}.

(** [datetime.now(tz)] at the UTC instant [now]. *)
Definition datetime_now (tz : tzinfo) (now : Z) : datetime :=
  {| wall := now + utcoffset_at tz now; utcoffset := utcoffset_at tz now |}.

(** [dt.date()]: the day number of the wall-clock reading. *)
Definition date (d : datetime) : Z := wall d / 86400.

(** [time(h, m)] as seconds into the day. *)
Definition time (h m : Z) : Z := h * 3600 + m * 60.

(** [datetime.combine(d, t)]: a naive datetime. *)
Definition combine (d t : Z) : Z := d * 86400 + t.

(** [naive.replace(tzinfo=tz)]: the wall clock is kept and the zone object is
    attached as it is. *)
Definition replace_tzinfo (naive : Z) (tz : tzinfo) : datetime :=
  {| wall := naive; utcoffset := zone_utcoffset tz |}.

(** [ts.tz_convert(tz)]: same instant, read on the zone's clock. *)
Definition tz_convert (tz : tzinfo) (d : datetime) : datetime :=
  {| wall := instant d + utcoffset_at tz (instant d);
     utcoffset := utcoffset_at tz (instant d) |}.

(** ** Price bars and change records *)

Definition exn : Type := string.

Module Bar.
(** One row of the frame [history] returns, with its index entry. *)
Record t : Type := mk {
  index : datetime;
  Open : float;
  High : float;
  Low : float;
  Close : float;
  Volume : Z
}.
End Bar.

(** What [yf.Ticker(ticker).history(period='1d', interval='1m')] does: it
    returns a frame, empty when the provider has nothing, or raises.  A
    frame is taken as the provider returns it for minute bars: an index of
    aware timestamps and float price columns. *)
Inductive history_result : Type :=
| Frame (bars : list Bar.t)
| Raises (e : exn).

Module Row.
(** The dict appended to [stock_data]; the keys ['10AM Price'] and
    ['Change %'] are spelled [TenAM_Price] and [Change_pct]. *)
Record t : Type := mk {
  Ticker : string;
  Open : float;
  TenAM_Price : float;
  Change : float;
  Change_pct : float
}.
End Row.

Definition STOCKS : list string :=
  ["AAPL"; "MSFT"; "GOOGL"; "AMZN"; "TSLA"; "META"; "NVDA"; "JPM"; "V"; "WMT";
   "JNJ"; "PG"; "MA"; "HD"; "DIS"; "BAC"; "ADBE"; "NFLX"; "CRM"; "CSCO"]%string.

(** ** Sorting a frame by a float column

    [df.sort_values(col, ascending=False)] returns the rows of [df] reordered
    so that the column does not increase, rows whose key is NaN last
    ([na_position='last']).  [na_last_desc k1 k2] says that a row with key
    [k1] may stand before a row with key [k2] in such an order. *)

Definition na_last_desc (k1 k2 : float) : bool :=
  (PrimFloat.is_nan k2 || (k2 <=? k1)%float)%bool.

(** A sorting algorithm as [sort_values] uses it.  Which algorithm runs is
    chosen by the [kind] argument (['quicksort'], ['mergesort'], ['heapsort'],
    ['stable']); every kind returns a permutation in the order above, and
    only some kinds keep rows with equal keys in their input order. *)
Record sort_kind : Type := mk_sort_kind {
  sort_desc :> forall A : Type, (A -> float) -> list A -> list A;
  sort_desc_perm : forall A (key : A -> float) (l : list A),
    Permutation l (sort_desc A key l);
  sort_desc_sorted : forall A (key : A -> float) (l : list A),
    StronglySorted (fun a b => na_last_desc (key a) (key b) = true)
                   (sort_desc A key l)
}.

(** ** Effects: console output, requests, exceptions *)

Module Msg.
(** The MIME message handed to [send_message]. *)
Record t : Type := mk {
  Subject : string;
  From : option string;
  To : option string;
  html : string
}.
End Msg.

Module Smtp.
(** One [with smtplib.SMTP(host, port)] block: connect, [starttls], [login],
    [send_message]. *)
Record session : Type := mk {
  host : string;
  port : Z;
  user : option string;
  password : option string;
  msg : Msg.t
}.
End Smtp.

Inductive event : Type :=
| Print (line : string)
| Fetch (ticker : string)
| SmtpSession (s : Smtp.session).

Inductive result (A : Type) : Type :=
| Ok (a : A)
| Raise (e : exn).
Arguments Ok {A} a.
Arguments Raise {A} e.

(** A computation: the events it performed, then its value or the exception
    it raised. *)
Definition M (A : Type) : Type := (list event * result A)%type.

Definition ret {A} (a : A) : M A := ([], Ok a).

Definition bind {A B} (m : M A) (k : A -> M B) : M B :=
  match m with
  | (t, Ok a) => let '(t', r) := k a in (t ++ t', r)
  | (t, Raise e) => (t, Raise e)
  end.

Definition raise {A} (e : exn) : M A := ([], Raise e).

Definition emit (ev : event) : M unit := ([ev], Ok tt).

Definition print (line : string) : M unit := emit (Print line).

(** [try: m except Exception as e: h e]. *)
Definition try_except {A} (m : M A) (h : exn -> M A) : M A :=
  match m with
  | (t, Raise e) => let '(t', r) := h e in (t ++ t', r)
  | done => done
  end.

Declare Scope py_scope.
Delimit Scope py_scope with py.
Notation "x <- m ;; k" := (bind m (fun x => k))
  (at level 61, m at next level, right associativity) : py_scope.
Notation "m ;; k" := (bind m (fun _ => k))
  (at level 61, right associativity) : py_scope.

(** [xs.iloc[i]]: a negative [i] counts from the end; out of range raises. *)
Definition iloc {A} (xs : list A) (i : Z) : M A :=
  let n := Z.of_nat (List.length xs) in
  let j := if i <? 0 then n + i else i in
  if (j <? 0) || (n <=? j) then
    raise "single positional indexer is out-of-bounds"%string
  else match nth_error xs (Z.to_nat j) with
       | Some x => ret x
       | None => raise "single positional indexer is out-of-bounds"%string
       end.

(** ** The program *)

Module Config.
(** The module-level settings read from the environment. *)
Record t : Type := mk {
  SMTP_SERVER : string;
  SMTP_PORT : Z;
  SENDER_EMAIL : option string;
  SENDER_PASSWORD : option string;
  RECIPIENT_EMAIL : option string
}.
End Config.

Definition dquote : string := String "034"%char EmptyString.
Definition newline : string := String "010"%char EmptyString.

Section Program.

Local Open Scope py_scope.
Local Open Scope string_scope.

(** The world the program runs in. *)

(** The rule of US/Eastern in the tz database. *)
Variable tzdata_Eastern : Z -> Z.
(** The UTC instant at which [get_stock_changes] reads the clock. *)
Variable now : Z.
(** The data provider's answer for each ticker. *)
Variable history : string -> history_result.
(** The sorting algorithm behind [sort_values]. *)
Variable kind : sort_kind.
(** [os.environ.get]. *)
Variable environ : string -> option string.
(** [int] on a string; [None] when it raises [ValueError]. *)
Variable int_of_str : string -> option Z.
(** [datetime.now().strftime(fmt)]. *)
Variable strftime : string -> string.
(** The format spec [:.2f]. *)
Variable format_2f : float -> string.
(** [DataFrame.to_string(index=False)]. *)
Variable to_string : list Row.t -> string.
(** The mail relay's answer to a session: [None] when the message was
    accepted, the exception otherwise. *)
Variable smtp : Smtp.session -> option exn.

(** *** Configuration (lines 11-15) *)

Definition load_config : M Config.t :=
  let SMTP_SERVER :=
    match environ "SMTP_SERVER" with Some s => s | None => "smtp.gmail.com" end in
  SMTP_PORT <- match environ "SMTP_PORT" with
               | None => ret 587
               | Some s => match int_of_str s with
                           | Some n => ret n
                           | None => raise ("invalid literal for int() with base 10: '" ++ s ++ "'")
                           end
               end ;;
  ret {| Config.SMTP_SERVER := SMTP_SERVER;
         Config.SMTP_PORT := SMTP_PORT;
         Config.SENDER_EMAIL := environ "SENDER_EMAIL";
         Config.SENDER_PASSWORD := environ "SENDER_PASSWORD";
         Config.RECIPIENT_EMAIL := environ "RECIPIENT_EMAIL" |}.

(** *** [get_stock_changes] (lines 20-66) *)

Definition est : tzinfo := US_Eastern tzdata_Eastern.

Definition today : Z := date (datetime_now est now).

Definition market_open : datetime := replace_tzinfo (combine today (time 9 30)) est.

Definition ten_am : datetime := replace_tzinfo (combine today (time 10 0)) est.

(** The mask [(hist.index >= market_open) & (hist.index <= ten_am)]. *)
Definition in_window (i : datetime) : bool :=
  dt_leb market_open i && dt_leb i ten_am.

(** [hist.index = hist.index.tz_convert(est)] followed by the selection of
    line 39. *)
Definition morning_data (hist : list Bar.t) : list Bar.t :=
  filter (fun b => in_window (tz_convert est (Bar.index b))) hist.

(** [yf.Ticker(ticker).history(...)]. *)
Definition yf_history (ticker : string) : M (list Bar.t) :=
  emit (Fetch ticker) ;;
  match history ticker with
  | Frame bars => ret bars
  | Raises e => raise e
  end.

(** The [try] block of the loop, lines 32-54.  Its value is [stock_data]
    after the block: unchanged on [continue], one row longer otherwise. *)
Definition try_block (ticker : string) (stock_data : list Row.t) : M (list Row.t) :=
  hist <- yf_history ticker ;;
  match hist with
  | [] => ret stock_data
  | _ :: _ =>
    let morning := morning_data hist in
    if (List.length morning <? 2)%nat then ret stock_data
    else
      open_price <- iloc (map Bar.Open morning) 0 ;;
      ten_am_price <- iloc (map Bar.Close morning) (-1) ;;
      let pct_change := ((ten_am_price - open_price) / open_price * 100)%float in
      ret (stock_data ++
           [ {| Row.Ticker := ticker;
                Row.Open := open_price;
                Row.TenAM_Price := ten_am_price;
                Row.Change := (ten_am_price - open_price)%float;
                Row.Change_pct := pct_change |} ])%list
  end.

(** The loop of lines 30-58. *)
Fixpoint for_tickers (tickers : list string) (stock_data : list Row.t) : M (list Row.t) :=
  match tickers with
  | [] => ret stock_data
  | ticker :: rest =>
    stock_data' <- try_except (try_block ticker stock_data)
                     (fun e => print ("Error processing " ++ ticker ++ ": " ++ e) ;;
                               ret stock_data) ;;
    for_tickers rest stock_data'
  end.

(** The column [df['Abs_Change']]. *)
Definition Abs_Change (r : Row.t) : float := abs (Row.Change_pct r).

Definition get_stock_changes : M (list Row.t) :=
  stock_data <- for_tickers STOCKS [] ;;
  match stock_data with
  | [] => ret []
  | _ :: _ => ret (firstn 5 (kind _ Abs_Change stock_data))
  end.

(** *** [send_email] (lines 68-151) *)

Definition html_head : string :=
"
    <html>
    <head>
        <style>
            table {
                border-collapse: collapse;
                width: 100%;
                font-family: Arial, sans-serif;
            }
            th, td {
                border: 1px solid #ddd;
                padding: 12px;
                text-align: left;
            }
            th {
                background-color: #4CAF50;
                color: white;
            }
            tr:nth-child(even) {
                background-color: #f2f2f2;
            }
            .positive {
                color: green;
                font-weight: bold;
            }
            .negative {
                color: red;
                font-weight: bold;
            }
        </style>
    </head>
    <body>
        <h2>Top 5 Stock Movers (Market Open to 10:00 AM EST)</h2>
        <p>Date: " ++ strftime "%B %d, %Y" ++ "</p>
        <table>
            <tr>
                <th>Ticker</th>
                <th>Open Price</th>
                <th>10 AM Price</th>
                <th>Change ($)</th>
                <th>Change (%)</th>
            </tr>
    ".

(** Line 118. *)
Definition change_class (r : Row.t) : string :=
  if (0 <? Row.Change_pct r)%float then "positive" else "negative".

(** Lines 119-127. *)
Definition html_row (r : Row.t) : string :=
"
            <tr>
                <td><strong>" ++ Row.Ticker r ++ "</strong></td>
                <td>$" ++ format_2f (Row.Open r) ++ "</td>
                <td>$" ++ format_2f (Row.TenAM_Price r) ++ "</td>
                <td class=" ++ dquote ++ change_class r ++ dquote ++ ">$"
    ++ format_2f (Row.Change r) ++ "</td>
                <td class=" ++ dquote ++ change_class r ++ dquote ++ ">"
    ++ format_2f (Row.Change_pct r) ++ "%</td>
            </tr>
        ".

Definition html_tail : string :=
"
        </table>
    </body>
    </html>
    ".

Definition html_body (stock_data : list Row.t) : string :=
  fold_left (fun body r => body ++ html_row r) stock_data html_head ++ html_tail.

Definition compose (cfg : Config.t) (stock_data : list Row.t) : Msg.t :=
  {| Msg.Subject := "Top 5 Stock Movers - " ++ strftime "%Y-%m-%d";
     Msg.From := Config.SENDER_EMAIL cfg;
     Msg.To := Config.RECIPIENT_EMAIL cfg;
     Msg.html := html_body stock_data |}.

Definition session (cfg : Config.t) (stock_data : list Row.t) : Smtp.session :=
  {| Smtp.host := Config.SMTP_SERVER cfg;
     Smtp.port := Config.SMTP_PORT cfg;
     Smtp.user := Config.SENDER_EMAIL cfg;
     Smtp.password := Config.SENDER_PASSWORD cfg;
     Smtp.msg := compose cfg stock_data |}.

(** The [with smtplib.SMTP(...)] block of lines 144-147. *)
Definition deliver (s : Smtp.session) : M unit :=
  emit (SmtpSession s) ;;
  match smtp s with
  | None => ret tt
  | Some e => raise e
  end.

Definition send_email (cfg : Config.t) (stock_data : list Row.t) : M unit :=
  try_except
    (deliver (session cfg stock_data) ;;
     print "Email sent successfully!")
    (fun e => print ("Error sending email: " ++ e) ;; raise e).

(** *** [main] (lines 153-165) *)

Definition no_data_notice : string :=
  "No stock data available. Market may be closed or data unavailable.".

Definition main (cfg : Config.t) : M unit :=
  print "Fetching stock data..." ;;
  stock_data <- get_stock_changes ;;
  match stock_data with
  | [] => print no_data_notice
  | _ :: _ =>
    print (newline ++ "Top 5 Stock Movers:") ;;
    print (to_string stock_data) ;;
    print (newline ++ "Sending email...") ;;
    send_email cfg stock_data
  end.

(** Running the file as a script: the module body, then [main()].  The
    interpreter exits with status 1 on an uncaught exception, 0 otherwise. *)
Definition script : M unit :=
  cfg <- load_config ;;
  main cfg.

Definition exit_status {A} (m : M A) : Z :=
  match snd m with
  | Ok _ => 0
  | Raise _ => 1
  end.

End Program.

(** ** A sorting algorithm

    Descending insertion sort, with NaN keys last: one algorithm that meets
    the contract of [sort_kind], used to run the program on sample data. *)

Section Sorts.

Context {A : Type} (key : A -> float).

Fixpoint insert_desc (x : A) (l : list A) : list A :=
  match l with
  | [] => [x]
  | y :: l' =>
    if na_last_desc (key x) (key y) then x :: l else y :: insert_desc x l'
  end.

Definition insertion_sort_desc (l : list A) : list A :=
  fold_right insert_desc [] l.

End Sorts.

(** The row built at lines 48-54 from the first and the last bar of the
    selection. *)
Definition change_record (ticker : string) (first last_ : Bar.t) : Row.t :=
  let open_price := Bar.Open first in
  let ten_am_price := Bar.Close last_ in
  {| Row.Ticker := ticker;
     Row.Open := open_price;
     Row.TenAM_Price := ten_am_price;
     Row.Change := (ten_am_price - open_price)%float;
     Row.Change_pct := ((ten_am_price - open_price) / open_price * 100)%float |}.

(** The rows one ticker contributes to [stock_data], read off the provider's
    answer: one row when the selection has two bars or more, none otherwise. *)
Definition rows_of (tzdata_Eastern : Z -> Z) (now : Z)
    (history : string -> history_result) (ticker : string) : list Row.t :=
  match history ticker with
  | Frame bars =>
    match morning_data tzdata_Eastern now bars with
    | first :: (_ :: _) as others => [change_record ticker first (last others first)]
    | _ => []
    end
  | Raises _ => []
  end.

(** The window as the specification and the program's docstring word it: the
    index entries whose reading on the exchange's clock lies between 09:30
    and 10:00 of today, both included. *)
Definition stated_window (tzdata_Eastern : Z -> Z) (now : Z) (i : datetime)
    : bool :=
  let local := tz_convert (est tzdata_Eastern) i in
  (combine (today tzdata_Eastern now) (time 9 30) <=? wall local)
  && (wall local <=? combine (today tzdata_Eastern now) (time 10 0)).

(** Whether a ticker yields a change record. *)
Definition has_record (tzdata_Eastern : Z -> Z) (now : Z)
    (history : string -> history_result) (ticker : string) : bool :=
  match rows_of tzdata_Eastern now history ticker with
  | [] => false
  | _ :: _ => true
  end.

(** The report made of [stock_data], lines 60-66: sorted and cut to five
    rows. *)
Definition report_of (kind : sort_kind) (stock_data : list Row.t) : list Row.t :=
  match stock_data with
  | [] => []
  | _ :: _ => firstn 5 (kind _ Abs_Change stock_data)
  end.

(** What [main] prints between the report and the delivery attempt. *)
Definition summary (to_string : list Row.t -> string) (report : list Row.t)
    : list event :=
  [ Print (newline ++ "Top 5 Stock Movers:");
    Print (to_string report);
    Print (newline ++ "Sending email...") ].

(** A binary64 value that is an infinity or a NaN. *)
Definition SF_not_finite (x : spec_float) : Prop :=
  match x with
  | S754_infinity _ | S754_nan => True
  | _ => False
  end.

(** The [Fetch] events of a trace, in order. *)
Definition fetched (trace : list event) : list string :=
  flat_map (fun ev => match ev with Fetch t => [t] | _ => [] end) trace.

(** The SMTP sessions of a trace, in order. *)
Definition sessions (trace : list event) : list Smtp.session :=
  flat_map (fun ev => match ev with SmtpSession s => [s] | _ => [] end) trace.

(** ** A sample day

    A winter trading day, Tuesday 2024-01-16 (day 19738 of the epoch), with
    Eastern Standard Time in force and the clock read at 10:05 EST. *)

Module Sample.

Local Open Scope string_scope.

(** US/Eastern through 2024: daylight time from 2024-03-10 07:00 UTC to
    2024-11-03 06:00 UTC, standard time otherwise. *)
Definition tzdata_2024 (u : Z) : Z :=
  if ((1710054000 <=? u) && (u <? 1730613600))%Z then -14400 else -18000.

Definition now0 : Z := 19738 * 86400 + 15 * 3600 + 5 * 60.

(** An index entry as the provider stamps it: a reading of the exchange's
    clock on that day, at UTC-5. *)
Definition at_est (h m s : Z) : datetime :=
  {| wall := 19738 * 86400 + h * 3600 + m * 60 + s; utcoffset := -18000 |}.

Definition bar (i : datetime) (o c : float) : Bar.t :=
  {| Bar.index := i; Bar.Open := o; Bar.High := o; Bar.Low := c;
     Bar.Close := c; Bar.Volume := 1000 |}.

Definition aapl_bars : list Bar.t :=
  [ bar (at_est 9 30 0) 100 100.5;
    bar (at_est 9 45 0) 101 102;
    bar (at_est 9 56 0) 102.5 103 ]%float.

Definition msft_bars : list Bar.t :=
  [ bar (at_est 9 30 0) 50 49.75;
    bar (at_est 9 50 0) 49.5 49 ]%float.

(** AAPL and MSFT trade, TSLA's request fails, the others have no data. *)
Definition history0 (ticker : string) : history_result :=
  if String.eqb ticker "AAPL" then Frame aapl_bars
  else if String.eqb ticker "MSFT" then Frame msft_bars
  else if String.eqb ticker "TSLA" then Raises "connection reset"
  else Frame [].

(** No ticker has data. *)
Definition history_none (ticker : string) : history_result :=
  if String.eqb ticker "TSLA" then Raises "connection reset" else Frame [].

(** AAPL opens at zero. *)
Definition zero_bars : list Bar.t :=
  [ bar (at_est 9 30 0) 0 1; bar (at_est 9 31 0) 1 1 ]%float.

Definition history_zero (ticker : string) : history_result :=
  if String.eqb ticker "AAPL" then Frame zero_bars
  else if String.eqb ticker "MSFT" then Frame msft_bars
  else Frame [].

(** MSFT has one bar at 09:30 and one at 10:00. *)
Definition history_ten (ticker : string) : history_result :=
  if String.eqb ticker "MSFT"
  then Frame [ bar (at_est 9 30 0) 50 50; bar (at_est 10 0 0) 49 49 ]%float
  else Frame [].

(** The two bars of MSFT in [history_ten]. *)
Definition ten_bars : list Bar.t :=
  [ bar (at_est 9 30 0) 50 50; bar (at_est 10 0 0) 49 49 ]%float.

(** MSFT has one bar at 09:26 and one at 09:29. *)
Definition early_bars : list Bar.t :=
  [ bar (at_est 9 26 0) 50 50; bar (at_est 9 29 0) 49 49 ]%float.

Definition history_early (ticker : string) : history_result :=
  if String.eqb ticker "MSFT" then Frame early_bars else Frame [].

Definition early_row : Row.t :=
  Eval vm_compute in change_record "MSFT" (bar (at_est 9 26 0) 50 50)
                                          (bar (at_est 9 29 0) 49 49).

Definition environ_unset (name : string) : option string := None.

Definition int_of_str0 (s : string) : option Z := None.

Definition strftime0 (fmt : string) : string :=
  if String.eqb fmt "%Y-%m-%d" then "2024-01-16" else "January 16, 2024".

Definition format_2f0 (x : float) : string := "0.00".

Definition to_string0 (rows : list Row.t) : string :=
  String.concat newline (map Row.Ticker rows).

(** A relay that rejects a login without a user name and accepts the rest. *)
Definition relay (s : Smtp.session) : option exn :=
  match Smtp.user s with
  | None => Some "(535, b'5.7.8 Username and Password not accepted')"
  | Some _ => None
  end.

(** A relay that is down. *)
Definition relay_down (s : Smtp.session) : option exn :=
  Some "[Errno 111] Connection refused".

Definition cfg0 : Config.t :=
  {| Config.SMTP_SERVER := "smtp.gmail.com";
     Config.SMTP_PORT := 587;
     Config.SENDER_EMAIL := Some "alerts@example.com";
     Config.SENDER_PASSWORD := Some "app-password";
     Config.RECIPIENT_EMAIL := Some "me@example.com" |}.

(** The rows of the two tickers that trade in [history0]. *)
Definition aapl_row : Row.t :=
  Eval vm_compute in change_record "AAPL" (bar (at_est 9 30 0) 100 100.5)
                                          (bar (at_est 9 56 0) 102.5 103).

Definition msft_row : Row.t :=
  Eval vm_compute in change_record "MSFT" (bar (at_est 9 30 0) 50 49.75)
                                          (bar (at_est 9 50 0) 49.5 49).

Definition trace0 : list event :=
  Eval vm_compute in fst (for_tickers tzdata_2024 now0 history0 STOCKS []).

(** The settings when nothing is set in the environment. *)
Definition cfg_unset : Config.t :=
  {| Config.SMTP_SERVER := "smtp.gmail.com";
     Config.SMTP_PORT := 587;
     Config.SENDER_EMAIL := None;
     Config.SENDER_PASSWORD := None;
     Config.RECIPIENT_EMAIL := None |}.

(** Whether the program selects a bar with index [i] on that day. *)
Definition selected (i : datetime) : bool :=
  in_window tzdata_2024 now0 (tz_convert (est tzdata_2024) i).

End Sample.

(** ** binary64 comparisons

    The order facts about [float] that the sorting proofs need, obtained from
    the specification of the primitive comparisons over [spec_float]. *)

Module F64.

Local Open Scope float_scope.

Lemma SFcompare_refl (x : spec_float) :
  x <> S754_nan -> SFcompare x x = Some Eq.
Proof.
  destruct x as [s|s| |s m e]; intros H; try congruence; simpl.
  - now destruct s.
  - now destruct s.
  - change (Pos.compare_cont Eq m m) with (Pos.compare m m).
    rewrite Z.compare_refl, Pos.compare_refl. now destruct s.
Qed.

Lemma SFcompare_antisym (x y : spec_float) :
  SFcompare y x = option_map CompOpp (SFcompare x y).
Proof.
  destruct x as [sx|sx| |sx mx ex], y as [sy|sy| |sy my ey]; simpl;
    try reflexivity; try (now destruct sx); try (now destruct sy);
    try (now destruct sx, sy).
  change (Pos.compare_cont Eq my mx) with (Pos.compare my mx).
  change (Pos.compare_cont Eq mx my) with (Pos.compare mx my).
  rewrite (Z.compare_antisym ex ey), (Pos.compare_antisym mx my).
  destruct sx, sy; simpl; try reflexivity;
    destruct (ex ?= ey)%Z; simpl; try reflexivity;
    now destruct (mx ?= my)%positive.
Qed.

(** [SFcompare] read as a three-way comparison of integer ranks. *)
Lemma SFcompare_le_trans (x y z : spec_float) :
  SFleb x y = true -> SFleb y z = true -> SFleb x z = true.
Proof.
  unfold SFleb.
  destruct x as [sx|sx| |sx mx ex], y as [sy|sy| |sy my ey],
           z as [sz|sz| |sz mz ez]; simpl;
    try discriminate; try reflexivity;
    try (destruct sx; simpl; try discriminate; try reflexivity);
    try (destruct sy; simpl; try discriminate; try reflexivity);
    try (destruct sz; simpl; try discriminate; try reflexivity);
  change (Pos.compare_cont Eq ?a ?b) with (Pos.compare a b);
  repeat match goal with
  | |- context [(?a ?= ?b)%Z] =>
      destruct (Z.compare_spec a b); simpl; try discriminate; try reflexivity
  | |- context [(?a ?= ?b)%positive] =>
      destruct (Pos.compare_spec a b); simpl; try discriminate; try reflexivity
  end; intros; try discriminate; try reflexivity; try lia.
Qed.

Lemma is_nan_spec (x : float) :
  is_nan x = true <-> Prim2SF x = S754_nan.
Proof.
  unfold is_nan. rewrite eqb_spec. unfold SFeqb.
  destruct (Prim2SF x) eqn:E.
  - simpl. split; discriminate.
  - simpl. destruct s; split; discriminate.
  - simpl. split; reflexivity.
  - rewrite SFcompare_refl by discriminate. simpl. split; discriminate.
Qed.

Lemma is_nan_false (x : float) :
  is_nan x = false <-> Prim2SF x <> S754_nan.
Proof.
  rewrite <- is_nan_spec. destruct (is_nan x); split; congruence.
Qed.

Lemma leb_not_nan (x y : float) :
  (x <=? y) = true -> is_nan x = false /\ is_nan y = false.
Proof.
  rewrite leb_spec, !is_nan_false. unfold SFleb.
  destruct (Prim2SF x), (Prim2SF y); simpl; try discriminate;
    intros _; split; discriminate.
Qed.

Lemma leb_refl (x : float) : is_nan x = false -> (x <=? x) = true.
Proof.
  rewrite leb_spec, is_nan_false. intros H. unfold SFleb.
  now rewrite SFcompare_refl.
Qed.

Lemma leb_trans (x y z : float) :
  (x <=? y) = true -> (y <=? z) = true -> (x <=? z) = true.
Proof. rewrite !leb_spec. apply SFcompare_le_trans. Qed.

Lemma leb_total (x y : float) :
  is_nan x = false -> is_nan y = false ->
  (x <=? y) = false -> (y <=? x) = true.
Proof.
  rewrite !leb_spec, !is_nan_false. unfold SFleb. intros Hx Hy.
  rewrite (SFcompare_antisym (Prim2SF x) (Prim2SF y)).
  destruct (SFcompare (Prim2SF x) (Prim2SF y)) as [[]|] eqn:E; simpl;
    try discriminate; try reflexivity.
  destruct (Prim2SF x), (Prim2SF y); simpl in E; congruence.
Qed.

Lemma eqb_leb (x y : float) : (x =? y) = true -> (x <=? y) = true.
Proof.
  rewrite eqb_spec, leb_spec. unfold SFeqb, SFleb.
  now destruct (SFcompare _ _) as [[]|].
Qed.

Lemma eqb_sym (x y : float) : (x =? y) = (y =? x).
Proof.
  rewrite !eqb_spec. unfold SFeqb. rewrite (SFcompare_antisym (Prim2SF y)).
  now destruct (SFcompare _ _) as [[]|].
Qed.

Lemma ltb_leb_false (x y : float) : (x <? y) = true -> (y <=? x) = false.
Proof.
  rewrite ltb_spec, leb_spec. unfold SFltb, SFleb.
  rewrite (SFcompare_antisym (Prim2SF x)).
  now destruct (SFcompare _ _) as [[]|].
Qed.

Lemma eqb_zero (x : float) :
  (x =? 0) = true -> exists s, Prim2SF x = S754_zero s.
Proof.
  rewrite eqb_spec. unfold SFeqb.
  change (Prim2SF 0) with (S754_zero false).
  destruct (Prim2SF x) as [s|s| |s m e]; simpl; try discriminate.
  - intros _. now exists s.
  - now destruct s.
  - now destruct s.
Qed.

Lemma div_by_zero (v o : float) (s : bool) :
  Prim2SF o = S754_zero s -> SF_not_finite (Prim2SF (v / o)).
Proof.
  intros Ho. rewrite div_spec, Ho. unfold SF64div, SFdiv.
  now destruct (Prim2SF v).
Qed.

Lemma mul_100_not_finite (x : float) :
  SF_not_finite (Prim2SF x) -> SF_not_finite (Prim2SF (x * 100)).
Proof.
  rewrite mul_spec. unfold SF64mul, SFmul.
  change (Prim2SF 100) with (S754_finite false 7036874417766400 (-46)).
  now destruct (Prim2SF x).
Qed.

Lemma not_finite_is_finite (x : float) :
  SF_not_finite (Prim2SF x) -> is_finite x = false.
Proof.
  unfold is_finite, is_infinity. intros H.
  apply negb_false_iff, orb_true_iff.
  destruct (Prim2SF x) as [s|s| |s m e] eqn:E; try contradiction.
  - right. rewrite eqb_spec, abs_spec, E. reflexivity.
  - left. now apply is_nan_spec.
Qed.

(** The percent change computed from a zero open price is never finite. *)
Lemma pct_of_zero_open (c o : float) :
  (o =? 0) = true -> is_finite ((c - o) / o * 100) = false.
Proof.
  intros Ho. destruct (eqb_zero _ Ho) as [s Hs].
  apply not_finite_is_finite, mul_100_not_finite.
  now apply div_by_zero with s.
Qed.

End F64.

(** ** The order [na_last_desc] *)

Lemma na_last_desc_trans (a b c : float) :
  na_last_desc a b = true -> na_last_desc b c = true -> na_last_desc a c = true.
Proof.
  unfold na_last_desc. intros Hab Hbc.
  destruct (PrimFloat.is_nan c) eqn:Hc; [reflexivity|]. simpl in *.
  destruct (F64.leb_not_nan _ _ Hbc) as [_ Hb].
  rewrite Hb in Hab. simpl in Hab.
  now apply F64.leb_trans with b.
Qed.

Lemma na_last_desc_total (a b : float) :
  na_last_desc a b = false -> na_last_desc b a = true.
Proof.
  unfold na_last_desc. intros H.
  apply orb_false_iff in H. destruct H as [Hb Hba].
  destruct (PrimFloat.is_nan a) eqn:Ha; [reflexivity|]. simpl.
  now apply F64.leb_total.
Qed.

(** ** Insertion sort is a sort kind *)

Section SortFacts.

Context {A : Type} (key : A -> float).

Let R (a b : A) : Prop := na_last_desc (key a) (key b) = true.

Lemma insert_desc_perm (x : A) (l : list A) :
  Permutation (x :: l) (insert_desc key x l).
Proof.
  induction l as [|y l IH]; simpl.
  - apply Permutation_refl.
  - destruct (na_last_desc (key x) (key y)).
    + apply Permutation_refl.
    + apply perm_trans with (y :: x :: l).
      * apply perm_swap.
      * now apply perm_skip.
Qed.

Lemma insertion_sort_desc_perm (l : list A) :
  Permutation l (insertion_sort_desc key l).
Proof.
  induction l as [|x l IH]; simpl.
  - apply perm_nil.
  - apply perm_trans with (x :: insertion_sort_desc key l).
    + now apply perm_skip.
    + apply insert_desc_perm.
Qed.

Lemma insert_desc_sorted (x : A) (l : list A) :
  StronglySorted R l -> StronglySorted R (insert_desc key x l).
Proof.
  induction 1 as [|y l Hs IH Hy]; simpl.
  - constructor; [constructor | constructor].
  - destruct (na_last_desc (key x) (key y)) eqn:Hxy.
    + constructor.
      * now constructor.
      * constructor; [exact Hxy|].
        eapply Forall_impl; [|exact Hy].
        intros z Hz. unfold R in *. now apply na_last_desc_trans with (key y).
    + constructor; [exact IH|].
      apply (Permutation_Forall (insert_desc_perm x l)).
      constructor; [|exact Hy].
      now apply na_last_desc_total.
Qed.

Lemma insertion_sort_desc_sorted (l : list A) :
  StronglySorted R (insertion_sort_desc key l).
Proof.
  induction l as [|x l IH]; simpl.
  - constructor.
  - now apply insert_desc_sorted.
Qed.

End SortFacts.

(** Insertion sort as a kind. *)
Definition stable_kind : sort_kind :=
  {| sort_desc := @insertion_sort_desc;
     sort_desc_perm := @insertion_sort_desc_perm;
     sort_desc_sorted := @insertion_sort_desc_sorted |}.

(** ** List facts *)

Lemma two_or_more {A} (l : list A) :
  (2 <= List.length l)%nat ->
  exists first middle last_, l = first :: middle ++ [last_].
Proof.
  destruct l as [|first others]; simpl; [lia|].
  intros H.
  destruct (exists_last (l := others)) as [middle [last_ E]].
  - intros ->. simpl in H. lia.
  - now exists first, middle, last_; rewrite E.
Qed.

Lemma in_firstn {A} (n : nat) (l : list A) (x : A) :
  In x (firstn n l) -> In x l.
Proof.
  intros H. rewrite <- (firstn_skipn n l). apply in_or_app. now left.
Qed.

Lemma StronglySorted_firstn {A} (R : A -> A -> Prop) (n : nat) (l : list A) :
  StronglySorted R l -> StronglySorted R (firstn n l).
Proof.
  intros H. revert n.
  induction H as [|x l Hs IH Hx]; intros [|n]; simpl; try constructor.
  - apply IH.
  - rewrite Forall_forall in *. intros y Hy.
    apply Hx. eapply in_firstn. exact Hy.
Qed.

Lemma iloc_first {A} (x : A) (l : list A) : iloc (x :: l) 0 = ret x.
Proof.
  unfold iloc. simpl List.length.
  replace (Z.of_nat (S (List.length l)) <=? 0) with false
    by (symmetry; apply Z.leb_gt; lia).
  reflexivity.
Qed.

Lemma iloc_last {A} (l : list A) (x : A) : iloc (l ++ [x]) (-1) = ret x.
Proof.
  unfold iloc. rewrite length_app. simpl List.length.
  replace (-1 <? 0) with true by reflexivity.
  set (n := Z.of_nat (List.length l + 1)).
  assert (Hn : n + -1 = Z.of_nat (List.length l)) by (unfold n; lia).
  rewrite Hn.
  replace (Z.of_nat (List.length l) <? 0) with false
    by (symmetry; apply Z.ltb_ge; lia).
  replace (n <=? Z.of_nat (List.length l)) with false
    by (symmetry; apply Z.leb_gt; unfold n; lia).
  simpl. rewrite Nat2Z.id, nth_error_app2, Nat.sub_diag by lia.
  reflexivity.
Qed.

(** ** The change calculator *)

Section Calculator.

Variable tzdata_Eastern : Z -> Z.
Variable now : Z.
Variable history : string -> history_result.
Variable kind : sort_kind.

Local Abbreviation morning := (morning_data tzdata_Eastern now).
Local Abbreviation block := (try_block tzdata_Eastern now history).
Local Abbreviation loop := (for_tickers tzdata_Eastern now history).
Local Abbreviation rows := (rows_of tzdata_Eastern now history).
Local Abbreviation changes := (get_stock_changes tzdata_Eastern now history kind).

(** The three ways through the [try] block. *)

Lemma try_block_raises (ticker : string) (sd : list Row.t) (e : exn) :
  history ticker = Raises e ->
  block ticker sd = ([Fetch ticker], Raise e).
Proof.
  intros H. unfold try_block, yf_history. now rewrite H.
Qed.

Lemma try_block_skips (ticker : string) (sd : list Row.t) (bars : list Bar.t) :
  history ticker = Frame bars ->
  (List.length (morning bars) < 2)%nat ->
  block ticker sd = ([Fetch ticker], Ok sd).
Proof.
  intros H Hlen. unfold try_block, yf_history. rewrite H. simpl.
  destruct bars as [|b bars]; [reflexivity|].
  apply Nat.ltb_lt in Hlen. now rewrite Hlen.
Qed.

Lemma try_block_emits (ticker : string) (sd : list Row.t) (bars : list Bar.t)
    (first : Bar.t) (middle : list Bar.t) (last_ : Bar.t) :
  history ticker = Frame bars ->
  morning bars = first :: middle ++ [last_] ->
  block ticker sd = ([Fetch ticker], Ok (sd ++ [change_record ticker first last_])).
Proof.
  intros H Hm. unfold try_block, yf_history. rewrite H. simpl.
  destruct bars as [|b bars]; [discriminate Hm|].
  rewrite Hm.
  replace (List.length (first :: middle ++ [last_]) <? 2)%nat with false
    by (symmetry; apply Nat.ltb_ge; simpl; rewrite length_app; simpl; lia).
  change (map Bar.Open (first :: middle ++ [last_]))
    with (Bar.Open first :: map Bar.Open (middle ++ [last_])).
  rewrite iloc_first.
  replace (map Bar.Close (first :: middle ++ [last_]))
    with ((Bar.Close first :: map Bar.Close middle) ++ [Bar.Close last_])
    by (simpl; now rewrite map_app).
  rewrite iloc_last. reflexivity.
Qed.

Lemma rows_emitted (ticker : string) (bars : list Bar.t)
    (first : Bar.t) (middle : list Bar.t) (last_ : Bar.t) :
  history ticker = Frame bars ->
  morning bars = first :: middle ++ [last_] ->
  rows ticker = [change_record ticker first last_].
Proof.
  intros H Hm. unfold rows_of. rewrite H, Hm.
  destruct middle as [|m middle]; [reflexivity|].
  change ((m :: middle) ++ [last_]) with (m :: (middle ++ [last_])).
  cbv iota beta.
  change (m :: middle ++ [last_]) with ((m :: middle) ++ [last_]).
  now rewrite last_last.
Qed.

Lemma rows_skipped (ticker : string) (bars : list Bar.t) :
  history ticker = Frame bars ->
  (List.length (morning bars) < 2)%nat ->
  rows ticker = [].
Proof.
  intros H Hlen. unfold rows_of. rewrite H.
  destruct (morning bars) as [|first [|second others]]; try reflexivity.
  simpl in Hlen. lia.
Qed.

(** One iteration of the loop: the request is made, the exception (if any) is
    printed and swallowed, and [stock_data] grows by the ticker's rows. *)
Lemma iteration (ticker : string) (sd : list Row.t) :
  exists trace,
    try_except (block ticker sd)
      (fun e => bind (print ("Error processing " ++ ticker ++ ": " ++ e))
                     (fun _ => ret sd))
    = (trace, Ok (sd ++ rows ticker))
    /\ fetched trace = [ticker] /\ sessions trace = [].
Proof.
  destruct (history ticker) as [bars|e] eqn:H.
  - destruct (Nat.lt_ge_cases (List.length (morning bars)) 2) as [Hlen|Hlen].
    + rewrite (try_block_skips _ _ _ H Hlen), (rows_skipped _ _ H Hlen), app_nil_r.
      now exists [Fetch ticker].
    + destruct (two_or_more _ Hlen) as [first [middle [last_ Hm]]].
      rewrite (try_block_emits _ _ _ _ _ _ H Hm), (rows_emitted _ _ _ _ _ H Hm).
      now exists [Fetch ticker].
  - rewrite (try_block_raises _ _ _ H).
    unfold rows_of. rewrite H, app_nil_r. simpl.
    now eexists.
Qed.

Lemma fetched_app (t1 t2 : list event) : fetched (t1 ++ t2) = fetched t1 ++ fetched t2.
Proof. apply flat_map_app. Qed.

Lemma sessions_app (t1 t2 : list event) : sessions (t1 ++ t2) = sessions t1 ++ sessions t2.
Proof. apply flat_map_app. Qed.

(** The loop never raises: every ticker is requested, in order, and
    [stock_data] collects the rows of each. *)
Lemma for_tickers_spec (tickers : list string) (sd : list Row.t) :
  exists trace,
    loop tickers sd = (trace, Ok (sd ++ flat_map rows tickers))
    /\ fetched trace = tickers /\ sessions trace = [].
Proof.
  revert sd. induction tickers as [|ticker rest IH]; intros sd.
  - exists []. simpl. now rewrite app_nil_r.
  - destruct (iteration ticker sd) as [t1 [E1 [F1 S1]]].
    destruct (IH (sd ++ rows ticker)) as [t2 [E2 [F2 S2]]].
    exists (t1 ++ t2).
    cbn [for_tickers]. rewrite E1. unfold bind at 1. rewrite E2.
    rewrite fetched_app, sessions_app, F1, F2, S1, S2.
    simpl. now rewrite <- app_assoc.
Qed.

Lemma get_stock_changes_spec :
  exists trace,
    changes = (trace, Ok (report_of kind (flat_map rows STOCKS)))
    /\ fetched trace = STOCKS /\ sessions trace = [].
Proof.
  destruct (for_tickers_spec STOCKS []) as [t [E [F S]]].
  change ([] ++ flat_map rows STOCKS)%list with (flat_map rows STOCKS) in E.
  exists t. unfold get_stock_changes. rewrite E.
  split; [|now split].
  generalize (flat_map rows STOCKS) as sd. intros sd.
  unfold bind, report_of, ret.
  destruct sd; now rewrite app_nil_r.
Qed.

Lemma rows_ticker (ticker : string) (r : Row.t) :
  In r (rows ticker) -> Row.Ticker r = ticker /\ rows ticker = [r].
Proof.
  unfold rows_of.
  destruct (history ticker) as [bars|e]; [|contradiction].
  destruct (morning bars) as [|first [|second others]]; try contradiction.
  intros [<-|[]]. now split.
Qed.

Lemma rows_count (tickers : list string) :
  List.length (flat_map rows tickers) = List.length (filter (has_record tzdata_Eastern now history) tickers).
Proof.
  induction tickers as [|ticker rest IH]; [reflexivity|].
  simpl. rewrite length_app, IH. unfold has_record.
  destruct (rows ticker) as [|r rs] eqn:E; [reflexivity|].
  destruct (rows_ticker ticker r) as [_ E1]; [rewrite E; now left|].
  rewrite E1 in E. injection E as <-. reflexivity.
Qed.

Lemma report_of_incl (stock_data : list Row.t) (r : Row.t) :
  In r (report_of kind stock_data) -> In r stock_data.
Proof.
  unfold report_of. destruct stock_data as [|r0 sd]; [contradiction|].
  intros H. apply in_firstn in H.
  eapply Permutation_in; [|exact H].
  apply Permutation_sym, sort_desc_perm.
Qed.

Lemma has_record_iff (ticker : string) :
  has_record tzdata_Eastern now history ticker = true <->
  exists bars, history ticker = Frame bars /\ (2 <= List.length (morning bars))%nat.
Proof.
  unfold has_record, rows_of.
  destruct (history ticker) as [bars|e].
  - destruct (morning bars) as [|first [|second others]] eqn:Hm; simpl; split;
      try discriminate; try reflexivity.
    + intros [bars' [E H]]. injection E as <-. rewrite Hm in H. simpl in H. lia.
    + intros [bars' [E H]]. injection E as <-. rewrite Hm in H. simpl in H. lia.
    + intros _. exists bars. split; [reflexivity|]. rewrite Hm. simpl. lia.
  - split; [discriminate|]. intros [bars [E _]]. discriminate.
Qed.

(** C1.  Whatever bars the provider returns for the tickers, the report that
    [get_stock_changes] returns has [min 5 n] rows, [n] being the number of
    tickers that yielded a change record, and its rows are in descending
    order of the absolute value of their percent change: of two rows, the
    later one has the smaller or equal absolute percent change (or a NaN
    one, which has no rank and goes last). *)
Theorem report_length_and_order :
  exists trace report,
    changes = (trace, Ok report)
    /\ List.length report
       = Nat.min 5 (List.length (filter (has_record tzdata_Eastern now history) STOCKS))
    /\ StronglySorted
         (fun a b =>
            (PrimFloat.is_nan (abs (Row.Change_pct b))
             || (abs (Row.Change_pct b) <=? abs (Row.Change_pct a))%float)%bool
            = true)
         report.
Proof.
  destruct get_stock_changes_spec as [trace [E _]].
  exists trace, (report_of kind (flat_map rows STOCKS)).
  split; [exact E|].
  rewrite <- rows_count.
  generalize (flat_map rows STOCKS) as sd. intros sd.
  unfold report_of. destruct sd as [|r sd]; [split; [reflexivity|constructor]|].
  split.
  - rewrite length_firstn.
    now rewrite <- (Permutation_length (sort_desc_perm kind _ Abs_Change (r :: sd))).
  - apply StronglySorted_firstn, sort_desc_sorted.
Qed.

(** C2.  When the selection of a ticker's frame holds two bars or more, the
    [try] block appends one row whose open price is the [Open] of the first
    selected bar, whose 10AM price is the [Close] of the last selected bar,
    whose change is their difference and whose percent change is that
    difference divided by the open price, times 100. *)
Theorem change_record_values (ticker : string) (bars : list Bar.t) (sd : list Row.t) :
  history ticker = Frame bars ->
  (2 <= List.length (morning bars))%nat ->
  exists first middle last_ r,
    morning bars = first :: middle ++ [last_]
    /\ block ticker sd = ([Fetch ticker], Ok (sd ++ [r]))
    /\ Row.Ticker r = ticker
    /\ Row.Open r = Bar.Open first
    /\ Row.TenAM_Price r = Bar.Close last_
    /\ Row.Change r = (Bar.Close last_ - Bar.Open first)%float
    /\ Row.Change_pct r
       = ((Bar.Close last_ - Bar.Open first) / Bar.Open first * 100)%float.
Proof.
  intros H Hlen.
  destruct (two_or_more _ Hlen) as [first [middle [last_ Hm]]].
  exists first, middle, last_, (change_record ticker first last_).
  split; [exact Hm|].
  split; [now apply try_block_emits with bars middle|].
  repeat split.
Qed.

(** The rule of the loop, over the program's own selection.  For a ticker of
    the list, [stock_data] holds a row of that ticker
    exactly when the provider returned a frame with two bars or more inside
    the window [market_open, ten_am] that the program selects on.  The loop
    and [get_stock_changes] return normally whatever the provider did, and a
    ticker without such bars (no data, an exception, fewer than two bars in
    the window) has no row in the report. *)
Theorem record_iff_two_bars_in_window (ticker : string) :
  In ticker STOCKS ->
  exists trace stock_data report,
    loop STOCKS [] = (trace, Ok stock_data)
    /\ changes = (trace, Ok report)
    /\ ((exists r, In r stock_data /\ Row.Ticker r = ticker) <->
        (exists bars, history ticker = Frame bars
                      /\ (2 <= List.length (morning bars))%nat))
    /\ ((forall bars, history ticker = Frame bars ->
                      (List.length (morning bars) < 2)%nat) ->
        forall r, In r report -> Row.Ticker r <> ticker).
Proof.
  intros Hin.
  destruct (for_tickers_spec STOCKS []) as [trace [E _]].
  change ([] ++ flat_map rows STOCKS)%list with (flat_map rows STOCKS) in E.
  destruct get_stock_changes_spec as [trace' [E' _]].
  assert (trace' = trace) as ->.
  { unfold get_stock_changes in E'. rewrite E in E'.
    unfold bind in E'. destruct (flat_map rows STOCKS); simpl in E';
      rewrite app_nil_r in E'; congruence. }
  exists trace, (flat_map rows STOCKS), (report_of kind (flat_map rows STOCKS)).
  assert (Hiff : (exists r, In r (flat_map rows STOCKS) /\ Row.Ticker r = ticker)
                 <-> has_record tzdata_Eastern now history ticker = true).
  { split.
    - intros [r [Hr Ht]]. apply in_flat_map in Hr. destruct Hr as [t [_ Hr]].
      destruct (rows_ticker t r Hr) as [Ht' Hrows]. rewrite Ht in Ht'. subst t.
      unfold has_record. now rewrite Hrows.
    - unfold has_record. destruct (rows ticker) as [|r rs] eqn:Hr; [discriminate|].
      intros _. exists r. split.
      + apply in_flat_map. exists ticker. split; [exact Hin|]. rewrite Hr. now left.
      + apply (rows_ticker ticker r). rewrite Hr. now left. }
  split; [exact E|]. split; [exact E'|]. split.
  - rewrite Hiff. apply has_record_iff.
  - intros Hfew r Hr Ht.
    apply report_of_incl in Hr.
    assert (Hrec : has_record tzdata_Eastern now history ticker = true) by (apply Hiff; now exists r).
    apply has_record_iff in Hrec. destruct Hrec as [bars [Hb Hlen]].
    specialize (Hfew bars Hb). lia.
Qed.

(** The two bounds of the selection, as instants: the wall-clock readings
    09:30 and 10:00 of today, shifted by the offset of the bare zone object. *)
Lemma in_window_instants (i : datetime) :
  in_window tzdata_Eastern now i = true <->
  combine (today tzdata_Eastern now) (time 9 30) + (4 * 3600 + 56 * 60) <= instant i
  /\ instant i <= combine (today tzdata_Eastern now) (time 10 0) + (4 * 3600 + 56 * 60).
Proof.
  unfold in_window, dt_leb, market_open, ten_am, replace_tzinfo, instant.
  cbn [wall utcoffset est US_Eastern zone_utcoffset].
  rewrite andb_true_iff, !Z.leb_le. lia.
Qed.

(** The selection read on the exchange's clock: while the offset in force is
    [off], a bar is selected exactly when its local wall-clock reading lies
    between 09:30 and 10:00 shifted by [off + 4:56]. *)
Lemma in_window_local (i : datetime) (off : Z) :
  tzdata_Eastern (instant i) = off ->
  let local := tz_convert (est tzdata_Eastern) i in
  in_window tzdata_Eastern now local = true <->
  combine (today tzdata_Eastern now) (time 9 30) + (off + (4 * 3600 + 56 * 60)) <= wall local
  /\ wall local <= combine (today tzdata_Eastern now) (time 10 0) + (off + (4 * 3600 + 56 * 60)).
Proof.
  intros Hoff local. rewrite in_window_instants.
  unfold local, tz_convert.
  cbn [wall utcoffset est US_Eastern utcoffset_at].
  rewrite Hoff. unfold instant. cbn [wall utcoffset]. lia.
Qed.

(** C6, as the program has it.  When the first selected bar of a ticker has
    an open price equal to zero, the division raises nothing: the [try]
    block appends a row for the ticker, whose percent change is an infinity
    or a NaN, no ["Error processing"] line is printed, and the loop goes on
    with the remaining tickers. *)
Theorem zero_open_record_not_finite (ticker : string) (bars : list Bar.t)
    (sd : list Row.t) (rest : list string)
    (first : Bar.t) (middle : list Bar.t) (last_ : Bar.t) :
  history ticker = Frame bars ->
  morning bars = first :: middle ++ [last_] ->
  (Bar.Open first =? 0)%float = true ->
  exists r,
    block ticker sd = ([Fetch ticker], Ok (sd ++ [r]))
    /\ Row.Ticker r = ticker
    /\ PrimFloat.is_finite (Row.Change_pct r) = false
    /\ loop (ticker :: rest) sd
       = (Fetch ticker :: fst (loop rest (sd ++ [r])),
          snd (loop rest (sd ++ [r]))).
Proof.
  intros H Hm Hzero.
  exists (change_record ticker first last_).
  assert (E := try_block_emits ticker sd bars first middle last_ H Hm).
  split; [exact E|]. split; [reflexivity|]. split.
  - apply F64.pct_of_zero_open. exact Hzero.
  - cbn [for_tickers]. rewrite E. unfold try_except, bind.
    now destruct (loop rest (sd ++ [change_record ticker first last_])).
Qed.

End Calculator.

(** ** The emailer and [main] *)

Section Emailer.

Variable tzdata_Eastern : Z -> Z.
Variable now : Z.
Variable history : string -> history_result.
Variable kind : sort_kind.
Variable strftime : string -> string.
Variable format_2f : float -> string.
Variable to_string : list Row.t -> string.
Variable smtp : Smtp.session -> option exn.

Local Abbreviation changes := (get_stock_changes tzdata_Eastern now history kind).
Local Abbreviation mail := (session strftime format_2f).
Local Abbreviation send := (send_email strftime format_2f smtp).
Local Abbreviation run :=
  (main tzdata_Eastern now history kind strftime format_2f to_string smtp).

Lemma changes_trace (trace : list event) (report : list Row.t) :
  changes = (trace, Ok report) -> sessions trace = [].
Proof.
  destruct (get_stock_changes_spec tzdata_Eastern now history kind)
    as [trace' [E [_ S]]].
  rewrite E. now intros [= <- _].
Qed.

Lemma send_email_delivered (cfg : Config.t) (report : list Row.t) :
  smtp (mail cfg report) = None ->
  send cfg report
  = ([SmtpSession (mail cfg report); Print "Email sent successfully!"], Ok tt).
Proof.
  intros H. unfold send_email, deliver, bind, try_except, emit.
  now rewrite H.
Qed.

Lemma send_email_failed (cfg : Config.t) (report : list Row.t) (e : exn) :
  smtp (mail cfg report) = Some e ->
  send cfg report
  = ([SmtpSession (mail cfg report); Print ("Error sending email: " ++ e)],
     Raise e).
Proof.
  intros H. unfold send_email, deliver, bind, try_except, emit.
  now rewrite H.
Qed.

Lemma main_empty (cfg : Config.t) (trace : list event) :
  changes = (trace, Ok []) ->
  run cfg
  = (Print "Fetching stock data..." :: trace ++ [Print no_data_notice], Ok tt).
Proof.
  intros E. unfold main. rewrite E. reflexivity.
Qed.

Lemma main_nonempty (cfg : Config.t) (trace : list event) (r : Row.t)
    (report : list Row.t) :
  changes = (trace, Ok (r :: report)) ->
  run cfg
  = (Print "Fetching stock data..." :: trace ++ summary to_string (r :: report)
       ++ fst (send cfg (r :: report)),
     snd (send cfg (r :: report))).
Proof.
  intros E. unfold main. rewrite E. unfold bind, print, emit, summary.
  destruct (send cfg (r :: report)) as [t res]. reflexivity.
Qed.

(** C7.  When no ticker yields a change record the report is empty, [main]
    prints the notice and returns, no SMTP session is opened, and the exit
    status is 0. *)
Theorem empty_report_exits_quietly (cfg : Config.t) :
  filter (has_record tzdata_Eastern now history) STOCKS = [] ->
  exists trace,
    changes = (trace, Ok [])
    /\ run cfg
       = (Print "Fetching stock data..." :: trace ++ [Print no_data_notice], Ok tt)
    /\ sessions (fst (run cfg)) = []
    /\ exit_status (run cfg) = 0.
Proof.
  intros Hnone.
  destruct (get_stock_changes_spec tzdata_Eastern now history kind)
    as [trace [E [_ S]]].
  assert (Hsd : flat_map (rows_of tzdata_Eastern now history) STOCKS = []).
  { apply length_zero_iff_nil. now rewrite rows_count, Hnone. }
  rewrite Hsd in E. cbn [report_of] in E.
  exists trace. split; [exact E|].
  rewrite (main_empty cfg trace E).
  split; [reflexivity|]. split; [|reflexivity].
  cbn [fst]. change (Print "Fetching stock data..." :: trace ++ [Print no_data_notice])
    with ([Print "Fetching stock data..."] ++ trace ++ [Print no_data_notice]).
  now rewrite !sessions_app, S.
Qed.

(** C8.  With a report of at least one row, when the relay answers the
    session with an exception, [main] has printed the summary table before
    the session was opened, the session is the only one of the run, the
    failure is printed and raised again, and the exit status is 1. *)
Theorem delivery_failure_is_fatal (cfg : Config.t) (trace : list event)
    (r : Row.t) (report : list Row.t) (e : exn) :
  changes = (trace, Ok (r :: report)) ->
  smtp (mail cfg (r :: report)) = Some e ->
  run cfg
  = (Print "Fetching stock data..." :: trace
       ++ [ Print (newline ++ "Top 5 Stock Movers:");
            Print (to_string (r :: report));
            Print (newline ++ "Sending email...");
            SmtpSession (mail cfg (r :: report));
            Print ("Error sending email: " ++ e) ],
     Raise e)
  /\ sessions (fst (run cfg)) = [mail cfg (r :: report)]
  /\ exit_status (run cfg) = 1.
Proof.
  intros E Hfail.
  assert (Hrun := main_nonempty cfg trace r report E).
  rewrite (send_email_failed cfg _ e Hfail) in Hrun. cbn [fst snd] in Hrun.
  rewrite Hrun. split; [reflexivity|]. split; [|reflexivity].
  cbn [fst].
  change (Print "Fetching stock data..." :: ?t) with ([Print "Fetching stock data..."] ++ t).
  rewrite !sessions_app, (changes_trace trace _ E). reflexivity.
Qed.

(** C9, as the program has it.  No configuration value is looked at before
    the delivery attempt.  Whatever the settings are, unset ones included:
    with an empty report the run prints the notice and exits with status 0;
    with a report of at least one row the one SMTP session of the run is
    opened with the settings as they were read, and the relay's answer alone
    decides the outcome, an exception being printed as an error of sending
    and raised again. *)
Theorem configuration_is_not_checked (cfg : Config.t) :
  exists trace report,
    changes = (trace, Ok report)
    /\ match report with
       | [] =>
         run cfg
         = (Print "Fetching stock data..." :: trace ++ [Print no_data_notice], Ok tt)
       | _ :: _ =>
         Smtp.user (mail cfg report) = Config.SENDER_EMAIL cfg
         /\ Smtp.password (mail cfg report) = Config.SENDER_PASSWORD cfg
         /\ Msg.To (Smtp.msg (mail cfg report)) = Config.RECIPIENT_EMAIL cfg
         /\ sessions (fst (run cfg)) = [mail cfg report]
         /\ match smtp (mail cfg report) with
            | None =>
              run cfg
              = (Print "Fetching stock data..." :: trace ++ summary to_string report
                   ++ [SmtpSession (mail cfg report);
                       Print "Email sent successfully!"],
                 Ok tt)
            | Some e =>
              run cfg
              = (Print "Fetching stock data..." :: trace ++ summary to_string report
                   ++ [SmtpSession (mail cfg report);
                       Print ("Error sending email: " ++ e)],
                 Raise e)
            end
       end.
Proof.
  destruct (get_stock_changes_spec tzdata_Eastern now history kind)
    as [trace [E [_ S]]].
  exists trace, (report_of kind (flat_map (rows_of tzdata_Eastern now history) STOCKS)).
  split; [exact E|].
  destruct (report_of kind _) as [|r report] eqn:Hr.
  - now apply main_empty.
  - assert (Hrun := main_nonempty cfg trace r report E).
    repeat (split; [reflexivity|]).
    destruct (smtp (mail cfg (r :: report))) as [e|] eqn:Hsmtp.
    + rewrite (send_email_failed cfg _ e Hsmtp) in Hrun. cbn [fst snd] in Hrun.
      split; [|exact Hrun]. rewrite Hrun. cbn [fst].
      change (Print "Fetching stock data..." :: ?t)
        with ([Print "Fetching stock data..."] ++ t).
      rewrite !sessions_app, S. reflexivity.
    + rewrite (send_email_delivered cfg _ Hsmtp) in Hrun. cbn [fst snd] in Hrun.
      split; [|exact Hrun]. rewrite Hrun. cbn [fst].
      change (Print "Fetching stock data..." :: ?t)
        with ([Print "Fetching stock data..."] ++ t).
      rewrite !sessions_app, S. reflexivity.
Qed.

End Emailer.

(** The module body: it raises only on an [SMTP_PORT] that [int] rejects.
    The three settings without a default are stored as read, unset ones as
    [None]. *)
Lemma load_config_reads (environ : string -> option string)
    (int_of_str : string -> option Z) (port : Z) :
  match environ "SMTP_PORT"%string with
  | None => port = 587
  | Some s => int_of_str s = Some port
  end ->
  exists server,
    load_config environ int_of_str
    = ([], Ok {| Config.SMTP_SERVER := server;
                 Config.SMTP_PORT := port;
                 Config.SENDER_EMAIL := environ "SENDER_EMAIL"%string;
                 Config.SENDER_PASSWORD := environ "SENDER_PASSWORD"%string;
                 Config.RECIPIENT_EMAIL := environ "RECIPIENT_EMAIL"%string |}).
Proof.
  intros Hport. unfold load_config.
  destruct (environ "SMTP_PORT"%string) as [s|].
  - rewrite Hport. now eexists.
  - subst port. now eexists.
Qed.

(** The concatenation of a list of strings. *)
Definition join (l : list string) : string :=
  fold_right String.append EmptyString l.

Lemma string_append_assoc (a b c : string) :
  ((a ++ b) ++ c = a ++ (b ++ c))%string.
Proof.
  induction a as [|ch a IH]; [reflexivity|].
  cbn [String.append]. now rewrite IH.
Qed.

Lemma fold_left_append {A} (f : A -> string) (l : list A) (init : string) :
  fold_left (fun body x => (body ++ f x)%string) l init
  = (init ++ join (map f l))%string.
Proof.
  revert init. induction l as [|x l IH]; intros init.
  - cbn [fold_left map join fold_right].
    induction init as [|ch init IHi]; [reflexivity|].
    cbn [String.append]. now rewrite <- IHi.
  - cbn [fold_left map join fold_right]. rewrite IH.
    apply string_append_assoc.
Qed.

Lemma join_app (l1 l2 : list string) :
  join (l1 ++ l2) = (join l1 ++ join l2)%string.
Proof.
  induction l1 as [|x l1 IH]; [reflexivity|].
  cbn [app join fold_right]. fold (join (l1 ++ l2)). fold (join l1).
  rewrite IH. symmetry. apply string_append_assoc.
Qed.

(** C10.  The row rendered for a record carries one style class, on its
    change cell and on its percent cell; the class is ["positive"] exactly
    when the percent change is greater than zero and ["negative"] otherwise,
    so a percent change equal to zero gets ["negative"].  The rendering of
    every row of the report is part of the body of the email. *)
Theorem row_class_by_sign (strftime : string -> string)
    (format_2f : float -> string) (report : list Row.t) (r : Row.t) :
  exists cls : string,
    html_row format_2f r
    = ("
            <tr>
                <td><strong>" ++ Row.Ticker r ++ "</strong></td>
                <td>$" ++ format_2f (Row.Open r) ++ "</td>
                <td>$" ++ format_2f (Row.TenAM_Price r) ++ "</td>
                <td class=" ++ dquote ++ cls ++ dquote ++ ">$"
    ++ format_2f (Row.Change r) ++ "</td>
                <td class=" ++ dquote ++ cls ++ dquote ++ ">"
    ++ format_2f (Row.Change_pct r) ++ "%</td>
            </tr>
        ")%string
    /\ change_class r = cls
    /\ (In r report ->
        exists before after,
          html_body strftime format_2f report
          = (before ++ html_row format_2f r ++ after)%string)
    /\ (cls = "positive"%string <-> (0 <? Row.Change_pct r)%float = true)
    /\ (cls = "negative"%string <-> (0 <? Row.Change_pct r)%float = false)
    /\ ((Row.Change_pct r =? 0)%float = true -> cls = "negative"%string).
Proof.
  exists (change_class r).
  split; [reflexivity|]. split; [reflexivity|]. split.
  - intros Hin. apply in_split in Hin. destruct Hin as [l1 [l2 ->]].
    exists (html_head strftime ++ join (map (html_row format_2f) l1))%string,
           (join (map (html_row format_2f) l2) ++ html_tail)%string.
    unfold html_body. rewrite fold_left_append, map_app, join_app.
    cbn [map join fold_right]. fold (join (map (html_row format_2f) l2)).
    now rewrite !string_append_assoc.
  - unfold change_class.
    destruct (0 <? Row.Change_pct r)%float eqn:Hpos.
    + repeat split; try reflexivity; try discriminate.
      intros Hz. apply F64.ltb_leb_false in Hpos.
      apply F64.eqb_leb in Hz. congruence.
    + repeat split; try reflexivity; discriminate.
Qed.

(** ** Runs on the sample day *)

Module Example.

Import Sample.

Local Open Scope string_scope.

(** The runs of the script used below. *)
Definition run_relay_down : M unit :=
  main tzdata_2024 now0 history0 stable_kind strftime0 format_2f0 to_string0
       relay_down cfg0.

Definition run_no_data : M unit :=
  main tzdata_2024 now0 history_none stable_kind strftime0 format_2f0 to_string0
       relay cfg0.

Definition script_unset (history : string -> history_result) : M unit :=
  script tzdata_2024 now0 history stable_kind environ_unset int_of_str0
         strftime0 format_2f0 to_string0 relay.

(** C4 on that day.  [market_open] and [ten_am] denote 14:26 and 14:56 UTC,
    that is 09:26 and 09:56 on the exchange's clock: the bars stamped 09:26
    to 09:56 are selected, among them one stamped 09:29:59, and a bar stamped
    10:00:00 is not.  A ticker with one bar at 09:30 and one at 10:00 yields
    no change record. *)
Theorem window_on_a_winter_day :
  instant (market_open tzdata_2024 now0) = 19738 * 86400 + 14 * 3600 + 26 * 60
  /\ instant (ten_am tzdata_2024 now0) = 19738 * 86400 + 14 * 3600 + 56 * 60
  /\ selected (at_est 9 30 0) = true
  /\ selected (at_est 10 0 0) = false
  /\ selected (at_est 9 29 59) = true
  /\ selected (at_est 10 0 1) = false
  /\ selected (at_est 9 26 0) = true
  /\ selected (at_est 9 25 59) = false
  /\ selected (at_est 9 56 0) = true
  /\ selected (at_est 9 56 1) = false
  /\ snd (get_stock_changes tzdata_2024 now0 history_ten stable_kind) = Ok [].
Proof.
  unfold selected.
  repeat split; vm_compute; reflexivity.
Qed.

(** C3 on that day.  MSFT with one bar stamped 09:30 and one stamped 10:00
    has two bars inside the 09:30-10:00 window and yields no change record;
    MSFT with one bar stamped 09:26 and one stamped 09:29 has no bar inside
    that window and yields one, which is the report.  Both runs return
    normally.  The cause is the placement of [market_open] and [ten_am]
    shown under C4. *)
Theorem record_without_two_bars_in_stated_window :
  history_ten "MSFT" = Frame ten_bars
  /\ List.length
       (filter (fun b => stated_window tzdata_2024 now0 (Bar.index b)) ten_bars)
     = 2%nat
  /\ has_record tzdata_2024 now0 history_ten "MSFT" = false
  /\ snd (for_tickers tzdata_2024 now0 history_ten STOCKS []) = Ok []
  /\ history_early "MSFT" = Frame early_bars
  /\ List.length
       (filter (fun b => stated_window tzdata_2024 now0 (Bar.index b)) early_bars)
     = 0%nat
  /\ has_record tzdata_2024 now0 history_early "MSFT" = true
  /\ snd (for_tickers tzdata_2024 now0 history_early STOCKS []) = Ok [early_row]
  /\ snd (get_stock_changes tzdata_2024 now0 history_early stable_kind)
     = Ok [early_row].
Proof.
  repeat split; vm_compute; reflexivity.
Qed.

(** A run of C2: the AAPL row of [history0]. *)
Lemma change_record_values_AAPL :
  history0 "AAPL" = Frame aapl_bars
  /\ (2 <= List.length (morning_data tzdata_2024 now0 aapl_bars))%nat
  /\ exists first middle last_ r,
      morning_data tzdata_2024 now0 aapl_bars = (first :: middle ++ [last_])%list
      /\ try_block tzdata_2024 now0 history0 "AAPL" []
         = ([Fetch "AAPL"], Ok ([] ++ [r])%list)
      /\ Row.Ticker r = "AAPL"
      /\ Row.Open r = Bar.Open first
      /\ Row.TenAM_Price r = Bar.Close last_
      /\ Row.Change r = (Bar.Close last_ - Bar.Open first)%float
      /\ Row.Change_pct r
         = ((Bar.Close last_ - Bar.Open first) / Bar.Open first * 100)%float.
Proof.
  split; [reflexivity|]. split; [vm_compute; lia|].
  apply (change_record_values tzdata_2024 now0 history0 "AAPL" aapl_bars []).
  - reflexivity.
  - vm_compute. lia.
Defined.

(** A run of that rule: AAPL in [history0]. *)
Lemma record_iff_two_bars_in_window_AAPL :
  In "AAPL" STOCKS
  /\ exists trace stock_data report,
      for_tickers tzdata_2024 now0 history0 STOCKS [] = (trace, Ok stock_data)
      /\ get_stock_changes tzdata_2024 now0 history0 stable_kind = (trace, Ok report)
      /\ ((exists r, In r stock_data /\ Row.Ticker r = "AAPL") <->
          (exists bars, history0 "AAPL" = Frame bars
             /\ (2 <= List.length (morning_data tzdata_2024 now0 bars))%nat))
      /\ ((forall bars, history0 "AAPL" = Frame bars ->
             (List.length (morning_data tzdata_2024 now0 bars) < 2)%nat) ->
          forall r, In r report -> Row.Ticker r <> "AAPL").
Proof.
  assert (H : In "AAPL" STOCKS) by (left; reflexivity).
  split; [exact H|].
  exact (record_iff_two_bars_in_window tzdata_2024 now0 history0 stable_kind "AAPL" H).
Defined.

(** A run of C6: AAPL opens at zero in [history_zero]. *)
Lemma zero_open_record_not_finite_AAPL :
  history_zero "AAPL" = Frame zero_bars
  /\ (Bar.Open (bar (at_est 9 30 0) 0 1) =? 0)%float = true
  /\ exists r,
      try_block tzdata_2024 now0 history_zero "AAPL" []
      = ([Fetch "AAPL"], Ok ([] ++ [r])%list)
      /\ Row.Ticker r = "AAPL"
      /\ PrimFloat.is_finite (Row.Change_pct r) = false
      /\ for_tickers tzdata_2024 now0 history_zero ["AAPL"; "MSFT"] []
         = (Fetch "AAPL"
              :: fst (for_tickers tzdata_2024 now0 history_zero ["MSFT"] ([] ++ [r])%list),
            snd (for_tickers tzdata_2024 now0 history_zero ["MSFT"] ([] ++ [r])%list)).
Proof.
  split; [reflexivity|]. split; [reflexivity|].
  apply (zero_open_record_not_finite tzdata_2024 now0 history_zero "AAPL"
           zero_bars [] ["MSFT"]
           (bar (at_est 9 30 0) 0 1) [] (bar (at_est 9 31 0) 1 1));
    reflexivity.
Defined.

(** C6 as stated fails: with AAPL opening at zero, the report holds a row
    for AAPL, whose percent change is infinite, and nothing was printed for
    it. *)
Lemma zero_open_row_in_report :
  exists trace r report,
    get_stock_changes tzdata_2024 now0 history_zero stable_kind
    = (trace, Ok (r :: report))
    /\ Row.Ticker r = "AAPL"
    /\ Row.Open r = 0%float
    /\ Row.Change_pct r = infinity
    /\ fetched trace = STOCKS
    /\ List.length trace = List.length STOCKS.
Proof.
  eexists _, _, _.
  split; [vm_compute; reflexivity|].
  repeat split.
Qed.

(** A run of C7: no ticker has data. *)
Lemma empty_report_exits_quietly_run :
  filter (has_record tzdata_2024 now0 history_none) STOCKS = []
  /\ exists trace,
      get_stock_changes tzdata_2024 now0 history_none stable_kind = (trace, Ok [])
      /\ run_no_data
         = ((Print "Fetching stock data..." :: trace ++ [Print no_data_notice])%list, Ok tt)
      /\ sessions (fst run_no_data) = []
      /\ exit_status run_no_data = 0.
Proof.
  assert (H : filter (has_record tzdata_2024 now0 history_none) STOCKS = [])
    by (vm_compute; reflexivity).
  split; [exact H|].
  exact (empty_report_exits_quietly tzdata_2024 now0 history_none stable_kind
           strftime0 format_2f0 to_string0 relay cfg0 H).
Defined.

(** A run of C8: the relay is down. *)
Lemma delivery_failure_is_fatal_run :
  get_stock_changes tzdata_2024 now0 history0 stable_kind
  = (trace0, Ok [aapl_row; msft_row])
  /\ relay_down (session strftime0 format_2f0 cfg0 [aapl_row; msft_row])
     = Some "[Errno 111] Connection refused"
  /\ sessions (fst run_relay_down)
     = [session strftime0 format_2f0 cfg0 [aapl_row; msft_row]]
  /\ exit_status run_relay_down = 1.
Proof.
  assert (E : get_stock_changes tzdata_2024 now0 history0 stable_kind
              = (trace0, Ok [aapl_row; msft_row])) by (vm_compute; reflexivity).
  split; [exact E|]. split; [reflexivity|].
  exact (proj2 (delivery_failure_is_fatal tzdata_2024 now0 history0 stable_kind
                  strftime0 format_2f0 to_string0 relay_down cfg0 trace0
                  aapl_row [msft_row] "[Errno 111] Connection refused"
                  E eq_refl)).
Defined.

(** C9 as stated fails: with nothing set in the environment the module loads
    the settings without complaint; when two tickers have data the run opens
    an SMTP session with no user name and ends on the relay's rejection,
    printed as an error of sending; when no ticker has data the run ends
    with exit status 0. *)
Lemma unset_settings_reach_the_relay :
  load_config environ_unset int_of_str0 = ([], Ok cfg_unset)
  /\ Config.SENDER_EMAIL cfg_unset = None
  /\ sessions (fst (script_unset history0))
     = [session strftime0 format_2f0 cfg_unset [aapl_row; msft_row]]
  /\ last (fst (script_unset history0)) (Print "")
     = Print "Error sending email: (535, b'5.7.8 Username and Password not accepted')"
  /\ exit_status (script_unset history0) = 1
  /\ sessions (fst (script_unset history_none)) = []
  /\ exit_status (script_unset history_none) = 0.
Proof.
  repeat split; vm_compute; reflexivity.
Qed.

End Example.

(** ** Further properties of the change calculator *)

(** The line the [except] branch prints for a ticker, if its request
    raised. *)
Definition error_lines (history : string -> history_result) (ticker : string)
    : list string :=
  match history ticker with
  | Raises e => ["Error processing " ++ ticker ++ ": " ++ e]%string
  | Frame _ => []
  end.

(** The events of one turn of the loop. *)
Definition turn (history : string -> history_result) (ticker : string)
    : list event :=
  Fetch ticker :: map Print (error_lines history ticker).

Lemma StronglySorted_app_cross {A} (R : A -> A -> Prop) (l1 l2 : list A) :
  StronglySorted R (l1 ++ l2) ->
  forall a b, In a l1 -> In b l2 -> R a b.
Proof.
  induction l1 as [|x l1 IH]; intros Hs a b Ha Hb; [contradiction|].
  simpl in Hs. apply StronglySorted_inv in Hs. destruct Hs as [Hs Hx].
  destruct Ha as [<-|Ha].
  - rewrite Forall_forall in Hx. apply Hx, in_or_app. now right.
  - now apply IH.
Qed.

Lemma NoDup_firstn {A} (n : nat) (l : list A) : NoDup l -> NoDup (firstn n l).
Proof.
  intros H. rewrite <- (firstn_skipn n l) in H.
  now apply NoDup_app_remove_r in H.
Qed.

Lemma NoDup_STOCKS : NoDup STOCKS.
Proof.
  assert (E : nodup string_dec STOCKS = STOCKS) by (vm_compute; reflexivity).
  rewrite <- E. apply NoDup_nodup.
Qed.

Section CalculatorMore.

Variable tzdata_Eastern : Z -> Z.
Variable now : Z.
Variable history : string -> history_result.
Variable kind : sort_kind.

Local Abbreviation morning := (morning_data tzdata_Eastern now).
Local Abbreviation block := (try_block tzdata_Eastern now history).
Local Abbreviation loop := (for_tickers tzdata_Eastern now history).
Local Abbreviation rows := (rows_of tzdata_Eastern now history).
Local Abbreviation has := (has_record tzdata_Eastern now history).
Local Abbreviation changes := (get_stock_changes tzdata_Eastern now history kind).

Lemma iteration_exact (ticker : string) (sd : list Row.t) :
  try_except (block ticker sd)
    (fun e => bind (print ("Error processing " ++ ticker ++ ": " ++ e))
                   (fun _ => ret sd))
  = (turn history ticker, Ok (sd ++ rows ticker)).
Proof.
  unfold turn, error_lines.
  destruct (history ticker) as [bars|e] eqn:H.
  - destruct (Nat.lt_ge_cases (List.length (morning bars)) 2) as [Hlen|Hlen].
    + rewrite (try_block_skips _ _ _ _ _ _ H Hlen),
              (rows_skipped _ _ _ _ _ H Hlen), app_nil_r.
      reflexivity.
    + destruct (two_or_more _ Hlen) as [first [middle [last_ Hm]]].
      rewrite (try_block_emits _ _ _ _ _ _ _ _ _ H Hm),
              (rows_emitted _ _ _ _ _ _ _ _ H Hm).
      reflexivity.
  - rewrite (try_block_raises _ _ _ _ _ _ H).
    unfold rows_of. rewrite H, app_nil_r. reflexivity.
Qed.

Lemma loop_exact (tickers : list string) (sd : list Row.t) :
  loop tickers sd
  = (flat_map (turn history) tickers, Ok (sd ++ flat_map rows tickers)).
Proof.
  revert sd. induction tickers as [|ticker rest IH]; intros sd.
  - cbn [for_tickers flat_map]. now rewrite app_nil_r.
  - cbn [for_tickers flat_map]. rewrite iteration_exact. unfold bind at 1.
    rewrite IH. now rewrite <- app_assoc.
Qed.

Lemma changes_exact :
  changes
  = (flat_map (turn history) STOCKS, Ok (report_of kind (flat_map rows STOCKS))).
Proof.
  unfold get_stock_changes. rewrite loop_exact.
  change ([] ++ flat_map rows STOCKS)%list with (flat_map rows STOCKS).
  generalize (flat_map rows STOCKS) as sd.
  generalize (flat_map (turn history) STOCKS) as t.
  intros t sd. unfold bind, report_of, ret.
  destruct sd; now rewrite app_nil_r.
Qed.

Lemma rows_is_change_record (ticker : string) (r : Row.t) :
  In r (rows ticker) ->
  exists first last_, r = change_record ticker first last_.
Proof.
  unfold rows_of.
  destruct (history ticker) as [bars|e]; [|contradiction].
  destruct (morning bars) as [|first [|second others]]; try contradiction.
  intros [<-|[]]. now eexists _, _.
Qed.

Lemma tickers_of_rows (tickers : list string) :
  map Row.Ticker (flat_map rows tickers) = filter has tickers.
Proof.
  induction tickers as [|ticker rest IH]; [reflexivity|].
  cbn [flat_map filter]. rewrite map_app, IH. unfold has_record.
  destruct (rows ticker) as [|r rs] eqn:E; [reflexivity|].
  destruct (rows_ticker tzdata_Eastern now history ticker r) as [Ht E1]; [rewrite E; now left|].
  rewrite E1 in E. injection E as <-. cbn [map app]. now rewrite Ht.
Qed.

(** X1.  Every ticker of the list is requested exactly once, in the order
    of the list, whatever happened to the tickers before it.  An exception
    of the provider for a ticker is printed as an ["Error processing"] line
    naming that ticker, [get_stock_changes] prints nothing but such lines,
    and it opens no SMTP session. *)
Theorem calculator_trace :
  fetched (fst changes) = STOCKS
  /\ (forall ticker e,
        In ticker STOCKS -> history ticker = Raises e ->
        In (Print ("Error processing " ++ ticker ++ ": " ++ e)) (fst changes))
  /\ (forall line,
        In (Print line) (fst changes) ->
        exists ticker e,
          In ticker STOCKS
          /\ line = ("Error processing " ++ ticker ++ ": " ++ e)%string)
  /\ sessions (fst changes) = [].
Proof.
  rewrite changes_exact. cbn [fst].
  split; [|split; [|split]].
  - generalize STOCKS as l. induction l as [|t l IH]; [reflexivity|].
    cbn [flat_map]. rewrite fetched_app, IH. unfold turn, error_lines.
    destruct (history t); reflexivity.
  - intros ticker e Hin H. apply in_flat_map. exists ticker.
    split; [exact Hin|]. unfold turn, error_lines. rewrite H. right. now left.
  - intros line Hl. apply in_flat_map in Hl. destruct Hl as [ticker [Hin Hl]].
    unfold turn, error_lines in Hl.
    destruct (history ticker) as [bars|e] eqn:H.
    + destruct Hl as [Hl|[]]. discriminate.
    + destruct Hl as [Hl|[Hl|[]]]; [discriminate|].
      injection Hl as <-. now exists ticker, e.
  - generalize STOCKS as l. induction l as [|t l IH]; [reflexivity|].
    cbn [flat_map]. rewrite sessions_app, IH. unfold turn, error_lines.
    destruct (history t); reflexivity.
Qed.

(** X2.  On a frame as the provider returns it (an index of aware
    timestamps, float [Open] and [Close] columns), the [try] block raises
    only what the provider raised for that ticker: the length test of line
    41 keeps [iloc[0]] and [iloc[-1]] in bounds, and the arithmetic of lines
    46 and 52 raises nothing. *)
Theorem try_block_raises_only_provider (ticker : string) (sd : list Row.t)
    (trace : list event) (e : exn) :
  block ticker sd = (trace, Raise e) ->
  history ticker = Raises e /\ trace = [Fetch ticker].
Proof.
  intros Hb.
  destruct (history ticker) as [bars|e'] eqn:H.
  - destruct (Nat.lt_ge_cases (List.length (morning bars)) 2) as [Hlen|Hlen].
    + rewrite (try_block_skips _ _ _ _ _ _ H Hlen) in Hb. discriminate.
    + destruct (two_or_more _ Hlen) as [first [middle [last_ Hm]]].
      rewrite (try_block_emits _ _ _ _ _ _ _ _ _ H Hm) in Hb. discriminate.
  - rewrite (try_block_raises _ _ _ _ _ _ H) in Hb.
    injection Hb as <- <-. now split.
Qed.

(** X3.  After the loop [stock_data] holds one row for each ticker that has
    two bars or more in the selection, in the order of the ticker list, and
    no other row. *)
Theorem stock_data_in_ticker_order :
  exists trace stock_data,
    loop STOCKS [] = (trace, Ok stock_data)
    /\ map Row.Ticker stock_data = filter has STOCKS.
Proof.
  eexists _, _. split.
  - apply loop_exact.
  - cbn [app]. apply tickers_of_rows.
Qed.

(** X4.  No ticker appears twice in the report, and every row of the report
    is a row of [stock_data] whose ticker is on the list. *)
Theorem report_tickers_distinct :
  exists trace report,
    changes = (trace, Ok report)
    /\ NoDup (map Row.Ticker report)
    /\ forall r, In r report ->
         In r (flat_map rows STOCKS) /\ In (Row.Ticker r) STOCKS.
Proof.
  eexists _, _. split; [apply changes_exact|]. split.
  - assert (Hsd : NoDup (map Row.Ticker (flat_map rows STOCKS))).
    { rewrite tickers_of_rows. apply NoDup_filter, NoDup_STOCKS. }
    revert Hsd. generalize (flat_map rows STOCKS) as sd. intros sd Hsd.
    unfold report_of. destruct sd as [|r sd]; [constructor|].
    rewrite <- firstn_map. apply NoDup_firstn.
    eapply Permutation_NoDup; [|exact Hsd].
    apply Permutation_map, sort_desc_perm.
  - intros r Hr. apply report_of_incl in Hr. split; [exact Hr|].
    apply in_flat_map in Hr. destruct Hr as [ticker [Hin Hr]].
    now destruct (rows_ticker tzdata_Eastern now history ticker r Hr) as [-> _].
Qed.

(** X5.  The report is the head of the ranking: the rows of [stock_data] are
    the rows of the report and the rows left out, the absolute value of the
    percent change of every row left out is no greater than that of any row
    kept (or is a NaN), and nothing is left out when [stock_data] has five
    rows or fewer. *)
Theorem report_is_head_of_ranking :
  exists trace report rest,
    changes = (trace, Ok report)
    /\ Permutation (flat_map rows STOCKS) (report ++ rest)
    /\ (forall a b, In a report -> In b rest ->
          (PrimFloat.is_nan (abs (Row.Change_pct b))
           || (abs (Row.Change_pct b) <=? abs (Row.Change_pct a))%float)%bool
          = true)
    /\ ((List.length (flat_map rows STOCKS) <= 5)%nat -> rest = []).
Proof.
  exists (flat_map (turn history) STOCKS),
         (report_of kind (flat_map rows STOCKS)),
         (match flat_map rows STOCKS with
          | [] => []
          | _ :: _ => skipn 5 (kind _ Abs_Change (flat_map rows STOCKS))
          end).
  split; [apply changes_exact|].
  generalize (flat_map rows STOCKS) as sd. intros sd.
  unfold report_of. destruct sd as [|r sd].
  - repeat split; try constructor. intros a b [].
  - split; [|split].
    + rewrite firstn_skipn. apply sort_desc_perm.
    + apply (StronglySorted_app_cross
               (fun a b =>
                  (PrimFloat.is_nan (abs (Row.Change_pct b))
                   || (abs (Row.Change_pct b) <=? abs (Row.Change_pct a))%float)%bool
                  = true)).
      rewrite firstn_skipn.
      exact (sort_desc_sorted kind _ Abs_Change (r :: sd)).
    + intros Hlen. apply skipn_all2.
      now rewrite <- (Permutation_length (sort_desc_perm kind _ Abs_Change (r :: sd))).
Qed.

(** X6.  Every row of the report is consistent: its change is its 10AM price
    minus its open price, and its percent change is that difference divided
    by the open price, times 100; sorting and cutting alter no row. *)
Theorem report_rows_consistent :
  exists trace report,
    get_stock_changes tzdata_Eastern now history kind = (trace, Ok report)
    /\ Forall (fun r =>
         Row.Change r = (Row.TenAM_Price r - Row.Open r)%float
         /\ Row.Change_pct r
            = ((Row.TenAM_Price r - Row.Open r) / Row.Open r * 100)%float)
       report.
Proof.
  eexists _, _. split; [apply changes_exact|].
  apply Forall_forall. intros r Hr.
  apply report_of_incl, in_flat_map in Hr. destruct Hr as [ticker [_ Hr]].
  destruct (rows_is_change_record ticker r Hr) as [first [last_ ->]].
  now split.
Qed.

(** X7.  The selection does not depend on the zone the provider stamps the
    bars in ([tz_convert] keeps the instant), and, read on the clock of
    the zone the index was converted to, a bar is selected exactly when its
    reading lies between 09:30 and 10:00 of today, both included, each
    shifted by the offset in force plus 4:56. *)
Theorem selection_on_exchange_clock (i : datetime) :
  let local := tz_convert (est tzdata_Eastern) i in
  in_window tzdata_Eastern now local = in_window tzdata_Eastern now i
  /\ (in_window tzdata_Eastern now local = true <->
      combine (today tzdata_Eastern now) (time 9 30)
        + (utcoffset local + (4 * 3600 + 56 * 60)) <= wall local
      /\ wall local
         <= combine (today tzdata_Eastern now) (time 10 0)
            + (utcoffset local + (4 * 3600 + 56 * 60))).
Proof.
  intros local.
  assert (Hi : instant local = instant i).
  { unfold local, tz_convert, instant. cbn [wall utcoffset]. lia. }
  split.
  - unfold in_window, dt_leb. now rewrite Hi.
  - rewrite in_window_instants, Hi. unfold instant.
    assert (Hw : wall local = wall i - utcoffset i + utcoffset local).
    { unfold local, tz_convert, instant. cbn [wall utcoffset]. lia. }
    lia.
Qed.

End CalculatorMore.

(** ** Further properties of the emailer and of [main] *)

Lemma flat_map_nil {A B} (f : A -> list B) (l : list A) :
  (forall x, In x l -> f x = []) -> flat_map f l = [].
Proof.
  induction l as [|x l IH]; intros H; [reflexivity|].
  cbn [flat_map]. rewrite (H x) by now left.
  apply IH. intros y Hy. apply H. now right.
Qed.

Lemma ltb_nan_r (x y : float) :
  PrimFloat.is_nan y = true -> (x <? y)%float = false.
Proof.
  intros Hy. apply F64.is_nan_spec in Hy.
  rewrite ltb_spec, Hy. unfold SFltb.
  now destruct (Prim2SF x).
Qed.

Section EmailerMore.

Variable tzdata_Eastern : Z -> Z.
Variable now : Z.
Variable history : string -> history_result.
Variable kind : sort_kind.
Variable environ : string -> option string.
Variable int_of_str : string -> option Z.
Variable strftime : string -> string.
Variable format_2f : float -> string.
Variable to_string : list Row.t -> string.
Variable smtp : Smtp.session -> option exn.

Local Abbreviation changes := (get_stock_changes tzdata_Eastern now history kind).
Local Abbreviation rows := (rows_of tzdata_Eastern now history).
Local Abbreviation mail := (session strftime format_2f).
Local Abbreviation send := (send_email strftime format_2f smtp).
Local Abbreviation run :=
  (main tzdata_Eastern now history kind strftime format_2f to_string smtp).
Local Abbreviation whole :=
  (script tzdata_Eastern now history kind environ int_of_str strftime
          format_2f to_string smtp).

(** X8.  When every bar the provider returns lies outside the window, as the
    bars of an earlier day do, no ticker yields a row: [main] makes the
    twenty requests, prints the notice and returns, with exit status 0 and
    no SMTP session. *)
Theorem bars_outside_window_give_notice (cfg : Config.t) :
  (forall ticker bars b,
     In ticker STOCKS -> history ticker = Frame bars -> In b bars ->
     instant (Bar.index b) < instant (market_open tzdata_Eastern now)
     \/ instant (ten_am tzdata_Eastern now) < instant (Bar.index b)) ->
  run cfg
  = (Print "Fetching stock data..." :: flat_map (turn history) STOCKS
       ++ [Print no_data_notice],
     Ok tt)
  /\ sessions (fst (run cfg)) = []
  /\ exit_status (run cfg) = 0.
Proof.
  intros Hout.
  assert (Hrows : flat_map rows STOCKS = []).
  { apply flat_map_nil. intros ticker Hin.
    destruct (history ticker) as [bars|e] eqn:H.
    - apply (rows_skipped tzdata_Eastern now history ticker bars H).
      assert (Hm : morning_data tzdata_Eastern now bars = []).
      { unfold morning_data.
        assert (Hb : forall b, In b bars ->
                  in_window tzdata_Eastern now
                    (tz_convert (est tzdata_Eastern) (Bar.index b)) = false).
        { intros b Hb. specialize (Hout ticker bars b Hin H Hb).
          unfold in_window, dt_leb.
          replace (instant (tz_convert (est tzdata_Eastern) (Bar.index b)))
            with (instant (Bar.index b))
            by (unfold tz_convert, instant; cbn [wall utcoffset]; lia).
          apply andb_false_iff.
          destruct Hout as [Hlt|Hgt]; [left|right]; apply Z.leb_gt; exact Hlt || exact Hgt. }
        clear H. induction bars as [|b bars IH]; [reflexivity|].
        cbn [filter]. rewrite (Hb b) by now left.
        apply IH. intros b' Hb'. apply Hb. now right. }
      rewrite Hm. simpl. lia.
    - unfold rows_of. now rewrite H. }
  assert (E := changes_exact tzdata_Eastern now history kind).
  rewrite Hrows in E. cbn [report_of] in E.
  rewrite (main_empty _ _ _ _ strftime format_2f to_string smtp cfg _ E).
  split; [reflexivity|]. split; [|reflexivity].
  cbn [fst].
  change (Print "Fetching stock data..." :: ?t)
    with ([Print "Fetching stock data..."] ++ t).
  rewrite !sessions_app.
  rewrite (changes_trace _ _ _ _ _ _ E). reflexivity.
Qed.

(** X9.  With a report of at least one row, when the relay accepts the
    message [main] prints the summary, opens the one SMTP session of the run,
    prints the confirmation last and returns, with exit status 0. *)
Theorem delivery_success_exits_zero (cfg : Config.t) (trace : list event)
    (r : Row.t) (report : list Row.t) :
  changes = (trace, Ok (r :: report)) ->
  smtp (mail cfg (r :: report)) = None ->
  run cfg
  = (Print "Fetching stock data..." :: trace
       ++ summary to_string (r :: report)
       ++ [ SmtpSession (mail cfg (r :: report));
            Print "Email sent successfully!" ],
     Ok tt)
  /\ sessions (fst (run cfg)) = [mail cfg (r :: report)]
  /\ exit_status (run cfg) = 0.
Proof.
  intros E Hok.
  assert (Hrun := main_nonempty _ _ _ _ strftime format_2f to_string smtp
                    cfg trace r report E).
  rewrite (send_email_delivered _ _ _ cfg _ Hok) in Hrun. cbn [fst snd] in Hrun.
  rewrite Hrun. split; [reflexivity|]. split; [|reflexivity].
  cbn [fst].
  change (Print "Fetching stock data..." :: ?t)
    with ([Print "Fetching stock data..."] ++ t).
  rewrite !sessions_app, (changes_trace _ _ _ _ _ _ E). reflexivity.
Qed.

(** X10.  The HTML body is the head, then one rendered row for each row of
    the report in the order of the report, then the tail; for an empty
    report it is the head followed by the tail. *)
Theorem html_body_layout (report : list Row.t) :
  html_body strftime format_2f report
  = (html_head strftime ++ join (map (html_row format_2f) report) ++ html_tail)%string
  /\ html_body strftime format_2f [] = (html_head strftime ++ html_tail)%string.
Proof.
  split; [|reflexivity].
  unfold html_body. rewrite fold_left_append.
  apply string_append_assoc.
Qed.

(** X11.  [send_email] has no guard of its own: whatever the report, the
    empty one included, it opens exactly one SMTP session, returns when the
    relay accepts, and raises the relay's exception when it does not. *)
Theorem send_email_attempts_once (cfg : Config.t) (report : list Row.t) :
  sessions (fst (send cfg report)) = [mail cfg report]
  /\ (snd (send cfg report) = Ok tt <-> smtp (mail cfg report) = None)
  /\ (forall e, snd (send cfg report) = Raise e <->
                smtp (mail cfg report) = Some e).
Proof.
  destruct (smtp (mail cfg report)) as [e|] eqn:H.
  - rewrite (send_email_failed _ _ _ cfg report e H). cbn [fst snd].
    split; [reflexivity|]. split.
    + split; discriminate.
    + intros e'. split; intros [= ->]; reflexivity.
  - rewrite (send_email_delivered _ _ _ cfg report H). cbn [fst snd].
    split; [reflexivity|]. split.
    + split; reflexivity.
    + intros e'. split; discriminate.
Qed.

(** X12.  When [SMTP_PORT] is set to a string that [int] rejects, the script
    stops while loading the module: nothing is requested, printed or sent,
    and the exit status is 1. *)
Theorem bad_port_stops_script (s : string) :
  environ "SMTP_PORT"%string = Some s ->
  int_of_str s = None ->
  exists e, whole = ([], Raise e) /\ exit_status whole = 1.
Proof.
  intros Henv Hint.
  exists ("invalid literal for int() with base 10: '" ++ s ++ "'")%string.
  unfold script, load_config, exit_status.
  rewrite Henv, Hint. split; reflexivity.
Qed.

(** X14.  With [SMTP_SERVER] and [SMTP_PORT] unset and a report of at least
    one row, the script opens its one session with smtp.gmail.com on port
    587, logs in with the sender and the password as read from the
    environment, and hands over a message from the sender to the one
    recipient whose body renders the report. *)
Theorem unset_relay_defaults (trace : list event) (r : Row.t)
    (report : list Row.t) :
  environ "SMTP_SERVER"%string = None ->
  environ "SMTP_PORT"%string = None ->
  changes = (trace, Ok (r :: report)) ->
  exists s,
    sessions (fst whole) = [s]
    /\ Smtp.host s = "smtp.gmail.com"%string
    /\ Smtp.port s = 587
    /\ Smtp.user s = environ "SENDER_EMAIL"%string
    /\ Smtp.password s = environ "SENDER_PASSWORD"%string
    /\ Msg.From (Smtp.msg s) = environ "SENDER_EMAIL"%string
    /\ Msg.To (Smtp.msg s) = environ "RECIPIENT_EMAIL"%string
    /\ Msg.html (Smtp.msg s) = html_body strftime format_2f (r :: report).
Proof.
  intros Hserver Hport E.
  set (cfg := {| Config.SMTP_SERVER := "smtp.gmail.com"%string;
                 Config.SMTP_PORT := 587;
                 Config.SENDER_EMAIL := environ "SENDER_EMAIL"%string;
                 Config.SENDER_PASSWORD := environ "SENDER_PASSWORD"%string;
                 Config.RECIPIENT_EMAIL := environ "RECIPIENT_EMAIL"%string |}).
  assert (Hwhole : whole = run cfg).
  { unfold script, load_config. rewrite Hserver, Hport.
    unfold bind, ret. fold cfg. now destruct (run cfg). }
  exists (mail cfg (r :: report)).
  split; [|repeat split].
  rewrite Hwhole.
  rewrite (main_nonempty _ _ _ _ strftime format_2f to_string smtp
             cfg trace r report E).
  cbn [fst].
  change (Print "Fetching stock data..." :: ?t)
    with ([Print "Fetching stock data..."] ++ t).
  rewrite !sessions_app, (changes_trace _ _ _ _ _ _ E).
  destruct (smtp (mail cfg (r :: report))) as [e|] eqn:H.
  - now rewrite (send_email_failed _ _ _ cfg _ e H).
  - now rewrite (send_email_delivered _ _ _ cfg _ H).
Qed.

End EmailerMore.

(** X13.  A row whose percent change is NaN, as results from an open and a
    close that are both zero, is rendered with the ["negative"] class on its
    change cell and on its percent cell. *)
Theorem nan_row_styled_negative (format_2f : float -> string) (r : Row.t) :
  PrimFloat.is_nan (Row.Change_pct r) = true ->
  change_class r = "negative"%string
  /\ html_row format_2f r
     = ("
            <tr>
                <td><strong>" ++ Row.Ticker r ++ "</strong></td>
                <td>$" ++ format_2f (Row.Open r) ++ "</td>
                <td>$" ++ format_2f (Row.TenAM_Price r) ++ "</td>
                <td class=" ++ dquote ++ "negative" ++ dquote ++ ">$"
    ++ format_2f (Row.Change r) ++ "</td>
                <td class=" ++ dquote ++ "negative" ++ dquote ++ ">"
    ++ format_2f (Row.Change_pct r) ++ "%</td>
            </tr>
        ")%string.
Proof.
  intros Hnan.
  assert (Hclass : change_class r = "negative"%string).
  { unfold change_class. now rewrite (ltb_nan_r 0 _ Hnan). }
  split; [exact Hclass|].
  unfold html_row. rewrite Hclass. reflexivity.
Qed.

(** ** Further runs on the sample day *)

Module MoreRuns.

Import Sample.

Local Open Scope string_scope.

(** Every ticker has the two bars of the day before. *)
Definition stale_bars : list Bar.t :=
  [ bar {| wall := 19737 * 86400 + 9 * 3600 + 30 * 60; utcoffset := -18000 |} 10 11;
    bar {| wall := 19737 * 86400 + 9 * 3600 + 45 * 60; utcoffset := -18000 |} 11 12
  ]%float.

Definition history_stale (ticker : string) : history_result := Frame stale_bars.

(** [SMTP_PORT] is set to a string that is no number. *)
Definition environ_bad_port (name : string) : option string :=
  if String.eqb name "SMTP_PORT" then Some "587x" else None.

(** A row made of two bars whose prices are all zero. *)
Definition nan_row : Row.t :=
  change_record "AAPL" (bar (at_est 9 30 0) 0 0) (bar (at_est 9 31 0) 0 0).

Definition run_stale : M unit :=
  main tzdata_2024 now0 history_stale stable_kind strftime0 format_2f0 to_string0
       relay cfg0.

Definition run_delivered : M unit :=
  main tzdata_2024 now0 history0 stable_kind strftime0 format_2f0 to_string0
       relay cfg0.

Definition script_bad_port : M unit :=
  script tzdata_2024 now0 history0 stable_kind environ_bad_port int_of_str0
         strftime0 format_2f0 to_string0 relay.

(** A run of X2: the request for TSLA raises in [history0]. *)
Lemma try_block_raises_only_provider_TSLA :
  try_block tzdata_2024 now0 history0 "TSLA" []
  = ([Fetch "TSLA"], Raise "connection reset")
  /\ history0 "TSLA" = Raises "connection reset"
  /\ [Fetch "TSLA"] = [Fetch "TSLA"].
Proof.
  assert (H : try_block tzdata_2024 now0 history0 "TSLA" []
              = ([Fetch "TSLA"], Raise "connection reset")) by reflexivity.
  split; [exact H|].
  exact (try_block_raises_only_provider tzdata_2024 now0 history0 "TSLA" []
           [Fetch "TSLA"] "connection reset" H).
Defined.

(** A run of X8: the provider returns the bars of the day before. *)
Lemma bars_outside_window_give_notice_run :
  run_stale
  = ((Print "Fetching stock data..." :: flat_map (turn history_stale) STOCKS
        ++ [Print no_data_notice])%list,
     Ok tt)
  /\ sessions (fst run_stale) = []
  /\ exit_status run_stale = 0.
Proof.
  apply (bars_outside_window_give_notice tzdata_2024 now0 history_stale
           stable_kind strftime0 format_2f0 to_string0 relay cfg0).
  intros ticker bars b _ [= <-] Hb. left.
  destruct Hb as [<-|[<-|[]]]; vm_compute; reflexivity.
Defined.

(** A run of X9: the relay accepts the message. *)
Lemma delivery_success_exits_zero_run :
  get_stock_changes tzdata_2024 now0 history0 stable_kind
  = (trace0, Ok [aapl_row; msft_row])
  /\ relay (session strftime0 format_2f0 cfg0 [aapl_row; msft_row]) = None
  /\ sessions (fst run_delivered)
     = [session strftime0 format_2f0 cfg0 [aapl_row; msft_row]]
  /\ exit_status run_delivered = 0.
Proof.
  assert (E : get_stock_changes tzdata_2024 now0 history0 stable_kind
              = (trace0, Ok [aapl_row; msft_row])) by (vm_compute; reflexivity).
  split; [exact E|]. split; [reflexivity|].
  exact (proj2 (delivery_success_exits_zero tzdata_2024 now0 history0 stable_kind
                  strftime0 format_2f0 to_string0 relay cfg0 trace0
                  aapl_row [msft_row] E eq_refl)).
Defined.

(** A run of X12: the port is ["587x"]. *)
Lemma bad_port_stops_script_run :
  environ_bad_port "SMTP_PORT" = Some "587x"
  /\ int_of_str0 "587x" = None
  /\ exists e, script_bad_port = ([], Raise e) /\ exit_status script_bad_port = 1.
Proof.
  split; [reflexivity|]. split; [reflexivity|].
  exact (bad_port_stops_script tzdata_2024 now0 history0 stable_kind
           environ_bad_port int_of_str0 strftime0 format_2f0 to_string0 relay
           "587x" eq_refl eq_refl).
Defined.

(** A run of X13: the row of two all-zero bars. *)
Lemma nan_row_styled_negative_run :
  PrimFloat.is_nan (Row.Change_pct nan_row) = true
  /\ change_class nan_row = "negative"
  /\ html_row format_2f0 nan_row
     = ("
            <tr>
                <td><strong>" ++ Row.Ticker nan_row ++ "</strong></td>
                <td>$" ++ format_2f0 (Row.Open nan_row) ++ "</td>
                <td>$" ++ format_2f0 (Row.TenAM_Price nan_row) ++ "</td>
                <td class=" ++ dquote ++ "negative" ++ dquote ++ ">$"
    ++ format_2f0 (Row.Change nan_row) ++ "</td>
                <td class=" ++ dquote ++ "negative" ++ dquote ++ ">"
    ++ format_2f0 (Row.Change_pct nan_row) ++ "%</td>
            </tr>
        ").
Proof.
  split; [reflexivity|].
  exact (nan_row_styled_negative format_2f0 nan_row eq_refl).
Defined.

(** A run of X14: nothing is set in the environment. *)
Lemma unset_relay_defaults_run :
  get_stock_changes tzdata_2024 now0 history0 stable_kind
  = (trace0, Ok [aapl_row; msft_row])
  /\ exists s,
      sessions (fst (script tzdata_2024 now0 history0 stable_kind environ_unset
                       int_of_str0 strftime0 format_2f0 to_string0 relay))
      = [s]
      /\ Smtp.host s = "smtp.gmail.com"
      /\ Smtp.port s = 587
      /\ Smtp.user s = environ_unset "SENDER_EMAIL"
      /\ Smtp.password s = environ_unset "SENDER_PASSWORD"
      /\ Msg.From (Smtp.msg s) = environ_unset "SENDER_EMAIL"
      /\ Msg.To (Smtp.msg s) = environ_unset "RECIPIENT_EMAIL"
      /\ Msg.html (Smtp.msg s) = html_body strftime0 format_2f0 [aapl_row; msft_row].
Proof.
  assert (E : get_stock_changes tzdata_2024 now0 history0 stable_kind
              = (trace0, Ok [aapl_row; msft_row])) by (vm_compute; reflexivity).
  split; [exact E|].
  exact (unset_relay_defaults tzdata_2024 now0 history0 stable_kind environ_unset
           int_of_str0 strftime0 format_2f0 to_string0 relay trace0
           aapl_row [msft_row] eq_refl eq_refl E).
Defined.

End MoreRuns.
